(** * describe_csv: column descriptions with a response cache

    A shallow embedding of [describe_csv.py] and the properties of its
    description pipeline: the prompt, the pickle cache under [ollama_cache],
    the call to the Ollama model with its fallback, the regular-expression
    field extractor and the per-table driver.

    Text is modelled by [string]: a character is a code point below 256.
    On that range the whitespace class of [str.strip] and of the pattern
    [\s] are the same set, and matching an ASCII pattern letter under
    [re.IGNORECASE] is the comparison of ASCII lower-case forms. *)

From Stdlib Require Import ZArith Ascii String.
From stdpp Require Import base option list strings gmap.

Local Open Scope string_scope.

(** ** Characters and [str] helpers *)

Definition LF : ascii := ascii_of_nat 10.
Definition nl : string := String LF EmptyString.

(** [str.isspace] on one character: TAB..CR, FS..US, SPACE, NEL, NBSP. *)
Definition isspace (c : ascii) : bool :=
  let n := nat_of_ascii c in
  (((9 <=? n) && (n <=? 13)) || ((28 <=? n) && (n <=? 32))
   || (n =? 133) || (n =? 160))%nat.

Definition ascii_lower (c : ascii) : ascii :=
  let n := nat_of_ascii c in
  if ((65 <=? n) && (n <=? 90))%nat then ascii_of_nat (n + 32) else c.

(** [str.lstrip()], [str.rstrip()] and [str.strip()] without argument. *)
Fixpoint lstrip (s : string) : string :=
  match s with
  | String c t => if isspace c then lstrip t else s
  | EmptyString => EmptyString
  end.

Fixpoint rstrip (s : string) : string :=
  match s with
  | String c t =>
      match rstrip t with
      | EmptyString => if isspace c then EmptyString else String c EmptyString
      | r => String c r
      end
  | EmptyString => EmptyString
  end.

Definition strip (s : string) : string := rstrip (lstrip s).

Fixpoint drop_str (n : nat) (s : string) : string :=
  match n, s with
  | S m, String _ t => drop_str m t
  | _, _ => s
  end.

Fixpoint take_str (n : nat) (s : string) : string :=
  match n, s with
  | S m, String c t => String c (take_str m t)
  | _, _ => EmptyString
  end.

(** A string neither starts nor ends with a whitespace character. *)
Definition trimmed (s : string) : Prop :=
  (∀ c t, s = String c t → isspace c = false) ∧
  (∀ t c, s = t +:+ String c EmptyString → isspace c = false).

(** ** The part of [re] the patterns use

    A backtracking matcher in continuation style, as [re.search] runs it:
    alternatives are tried left to right, a greedy star takes the longest
    run first, a lazy star the shortest, and the leftmost start position
    wins.  Only group 1 is recorded, the patterns have no other. *)

Record flags := { IGNORECASE : bool; DOTALL : bool }.

Inductive cls := Dot | Space.

Inductive regex : Type :=
| Lit (c : ascii)
| Cat (r1 r2 : regex)
| Alt (r1 r2 : regex)
| Star (greedy : bool) (k : cls)
| Group (r : regex)
| Ahead (r : regex)
| Dollar
| Eps.

Definition char_eq (fl : flags) (p x : ascii) : bool :=
  if IGNORECASE fl then bool_decide (ascii_lower p = ascii_lower x)
  else bool_decide (p = x).

Definition cls_matches (fl : flags) (k : cls) (c : ascii) : bool :=
  match k with
  | Dot => DOTALL fl || negb (bool_decide (c = LF))
  | Space => isspace c
  end.

(** [$] without [re.MULTILINE]: the end of the text, or just before a
    newline that ends the text. *)
Definition at_end (s : string) : bool :=
  match s with
  | EmptyString => true
  | String c EmptyString => bool_decide (c = LF)
  | _ => false
  end.

Fixpoint star_greedy {A} (p : ascii → bool) (k : string → option A)
    (s : string) : option A :=
  match s with
  | String c t =>
      if p c then
        match star_greedy p k t with
        | Some m => Some m
        | None => k s
        end
      else k s
  | EmptyString => k s
  end.

Fixpoint star_lazy {A} (p : ascii → bool) (k : string → option A)
    (s : string) : option A :=
  match k s with
  | Some m => Some m
  | None =>
      match s with
      | String c t => if p c then star_lazy p k t else None
      | EmptyString => None
      end
  end.

(** What lies between the position [s] and the later position [s']. *)
Definition consumed (s s' : string) : string :=
  take_str (String.length s - String.length s') s.

Record match_obj := { group1 : option string }.

Fixpoint rmatch (fl : flags) (r : regex) (s : string) (g : option string)
    (k : string → option string → option match_obj) : option match_obj :=
  match r with
  | Lit c =>
      match s with
      | String x t => if char_eq fl c x then k t g else None
      | EmptyString => None
      end
  | Cat r1 r2 => rmatch fl r1 s g (λ s' g', rmatch fl r2 s' g' k)
  | Alt r1 r2 =>
      match rmatch fl r1 s g k with
      | Some m => Some m
      | None => rmatch fl r2 s g k
      end
  | Star true c => star_greedy (cls_matches fl c) (λ s', k s' g) s
  | Star false c => star_lazy (cls_matches fl c) (λ s', k s' g) s
  | Group r1 => rmatch fl r1 s g (λ s' _, k s' (Some (consumed s s')))
  | Ahead r1 =>
      match rmatch fl r1 s g (λ _ g', Some {| group1 := g' |}) with
      | Some m => k s (group1 m)
      | None => None
      end
  | Dollar => if at_end s then k s g else None
  | Eps => k s g
  end.

Definition match_here (fl : flags) (r : regex) (s : string) : option match_obj :=
  rmatch fl r s None (λ _ g, Some {| group1 := g |}).

(** [re.search]: the first start position, from the left, with a match. *)
Fixpoint re_search (fl : flags) (r : regex) (s : string) : option match_obj :=
  match match_here fl r s with
  | Some m => Some m
  | None =>
      match s with
      | String _ t => re_search fl r t
      | EmptyString => None
      end
  end.

Fixpoint lit (s : string) : regex :=
  match s with
  | String c t => Cat (Lit c) (lit t)
  | EmptyString => Eps
  end.

(** [\*\*LABEL\*\*:\s*(.*?)(?=\n-|\n\n|$)] *)
Definition boundary : regex :=
  Ahead (Alt (lit (nl +:+ "-")) (Alt (lit (nl +:+ nl)) Dollar)).

Definition section_pattern (label : regex) : regex :=
  Cat (lit "**") (Cat label (Cat (lit "**:")
    (Cat (Star true Space) (Cat (Group (Star false Dot)) boundary)))).

Definition patterns : list (string * regex) :=
  [ ("business_purpose", section_pattern (lit "Business Purpose"));
    ("data_quality_rules", section_pattern (lit "Data Quality Rules"));
    ("example_usage", section_pattern (lit "Example Usage"));
    ("issues", section_pattern
                 (Alt (lit "Known Issues/Limitations") (lit "Issues"))) ].

Definition parse_flags : flags := {| IGNORECASE := true; DOTALL := true |}.


(** ** Python values, exceptions and the store *)

#[local] Set Warnings "-register-all".
Inductive pyval : Type :=
| PyNone
| PyBool (b : bool)
| PyInt (z : Z)
| PyStr (s : string)
| PyList (l : list pyval)
| PyDict (d : list (string * pyval)).

(** The truth value [if v:] tests. *)
Definition truthy (v : pyval) : bool :=
  match v with
  | PyNone => false
  | PyBool b => b
  | PyInt z => negb (Z.eqb z 0)
  | PyStr s => negb (bool_decide (s = EmptyString))
  | PyList l => negb (bool_decide (l = []))
  | PyDict d => negb (bool_decide (d = []))
  end.

(** [d[key] = v] on a dict kept in insertion order. *)
Fixpoint dict_set (d : list (string * pyval)) (key : string) (v : pyval)
    : list (string * pyval) :=
  match d with
  | [] => [(key, v)]
  | (k, w) :: rest =>
      if bool_decide (k = key) then (k, v) :: rest
      else (k, w) :: dict_set rest key v
  end.

Fixpoint dict_get (d : list (string * pyval)) (key : string) : option pyval :=
  match d with
  | [] => None
  | (k, w) :: rest => if bool_decide (k = key) then Some w else dict_get rest key
  end.

Definition dict_keys (d : list (string * pyval)) : list string := d.*1.

(** An exception: its class and the text [str(e)] renders.  These are the
    errors, the instances of [Exception], which both handlers of the
    script catch; [KeyboardInterrupt] and [SystemExit], which
    [except Exception] lets through, are not values of this type. *)
Record exn := { exn_class : string; exn_text : string }.

Inductive outcome (A : Type) : Type :=
| Returned (a : A)
| Raised (e : exn).
Arguments Returned {A} a.
Arguments Raised {A} e.

(** A file of the cache directory: a pickle of a value, or content on
    which [open] or [pickle.load] raises. *)
Inductive cache_entry : Type :=
| Pickle (v : pyval)
| Damaged (e : exn).

(** The mutable world: the files of [ollama_cache], by path, and the calls
    made to the model so far, oldest first, as (model, prompt). *)
Record State := {
  files : gmap string cache_entry;
  chat_log : list (string * string)
}.

(** State and exceptions. *)
Definition M (A : Type) : Type := State → outcome A * State.

Definition ret {A} (a : A) : M A := λ σ, (Returned a, σ).
Definition lift {A} (o : outcome A) : M A := λ σ, (o, σ).

Definition bind {A B} (m : M A) (f : A → M B) : M B := λ σ,
  match m σ with
  | (Returned a, σ') => f a σ'
  | (Raised e, σ') => (Raised e, σ')
  end.

(** [try: m  except Exception as e: h e] *)
Definition try_except {A} (m : M A) (h : exn → M A) : M A := λ σ,
  match m σ with
  | (Returned a, σ') => (Returned a, σ')
  | (Raised e, σ') => h e σ'
  end.

Notation "'let!' x ':=' m 'in' k" := (bind m (λ x, k))
  (at level 10, x name, m at level 100, k at level 200).

(** ** The field extractor *)

Definition TypeError : exn :=
  {| exn_class := "TypeError";
     exn_text := "expected string or bytes-like object" |}.

Definition AttributeError : exn :=
  {| exn_class := "AttributeError";
     exn_text := "'NoneType' object has no attribute 'strip'" |}.

(** One turn of the loop over [patterns.items()]. *)
Definition parse_field (pattern : regex) (description : pyval) : outcome pyval :=
  match description with
  | PyStr text =>
      match re_search parse_flags pattern text with
      | Some m =>
          match group1 m with
          | Some g => Returned (PyStr (strip g))
          | None => Raised AttributeError
          end
      | None => Returned (PyStr "N/A")
      end
  | _ => Raised TypeError
  end.

Fixpoint parse_loop (ps : list (string * regex)) (description : pyval)
    (result : list (string * pyval)) : outcome pyval :=
  match ps with
  | [] => Returned (PyDict result)
  | (key, pattern) :: rest =>
      match parse_field pattern description with
      | Returned v => parse_loop rest description (dict_set result key v)
      | Raised e => Raised e
      end
  end.

Definition _parse_markdown_description (description : pyval) : outcome pyval :=
  parse_loop patterns description [].

(** ** The pipeline *)

Record column_info := {
  column_name : string;
  data_type : string;
  is_nullable : string
}.

Definition CACHE_DIR : string := "ollama_cache".

Section Pipeline.

(** The collaborators the script calls and does not define. *)

(** [hashlib.md5(prompt.encode()).hexdigest()] *)
Variable md5_hexdigest : string → string.

(** Observed cell values, and how an f-string renders a list of them. *)
Context {Sample : Type} `{EqDecision Sample}.
Variable repr_list : list Sample → string.

(** [client.chat(model=..., messages=[user prompt], ...)] followed by
    [response['message']['content']]: the text of the answer, or the
    exception raised.  The answer may depend on the calls made before. *)
Variable ollama_chat : list (string * string) → string → string → outcome string.

(** The fault of a store to [path]: [None] when the store succeeds, the
    exception [open(path, 'wb')] raises when it fails, the file being
    then left as it was.  An error of [pickle.dump] after the file was
    opened, which leaves a truncated file, is not among the faults
    modelled. *)
Variable write_fault : string → option exn.

(** [os.path.exists], [pd.read_csv] and
    [os.path.splitext(os.path.basename(path))[0]] on the path of the
    CSV file. *)
Record Series := {
  series_name : string;
  series_dtype : string;
  cells : list (option Sample)
}.
Variable os_path_exists : string → bool.
Variable pd_read_csv : string → outcome (list Series).
Variable path_stem : string → string.

(** *** The response cache *)

Definition _get_cache_key (prompt : string) : string := md5_hexdigest prompt.

(** [os.path.join(CACHE_DIR, f'{cache_key}.pkl')] for a key that is a
    file name, as a digest is; the store is keyed by the path so written. *)
Definition cache_file (cache_key : string) : string :=
  CACHE_DIR +:+ "/" +:+ cache_key +:+ ".pkl".

Definition _load_from_cache (cache_key : string) : M pyval := λ σ,
  match files σ !! cache_file cache_key with
  | Some (Pickle v) => (Returned v, σ)
  | Some (Damaged e) => (Raised e, σ)
  | None => (Returned PyNone, σ)
  end.

Definition _save_to_cache (cache_key : string) (response : pyval) : M unit := λ σ,
  match write_fault (cache_file cache_key) with
  | Some e => (Raised e, σ)
  | None =>
      (Returned (),
       {| files := <[cache_file cache_key := Pickle response]> (files σ);
          chat_log := chat_log σ |})
  end.

(** *** The call to the model *)

Definition client_chat (model prompt : string) : M string := λ σ,
  (ollama_chat (chat_log σ) model prompt,
   {| files := files σ; chat_log := chat_log σ ++ [(model, prompt)] |}).

Definition build_prompt (table_name : string) (ci : column_info)
    (sample_values : list Sample) : string :=
  nl +:+
  "    As a data governance expert, provide a concise description for the following database column:" +:+ nl +:+
  "    " +:+ nl +:+
  "    Table: " +:+ table_name +:+ nl +:+
  "    Column: " +:+ column_name ci +:+ nl +:+
  "    Data Type: " +:+ data_type ci +:+ nl +:+
  "    Is Nullable: " +:+ is_nullable ci +:+ nl +:+
  "    " +:+ nl +:+
  "    Here are a few sample values from the column: " +:+ repr_list sample_values +:+ nl +:+
  "    " +:+ nl +:+
  "    Please provide the following information in markdown format:" +:+ nl +:+
  "    - **Business Purpose**: Briefly describe the column's role in business processes (1 clear sentence)." +:+ nl +:+
  "    - **Data Quality Rules**: List 1-2 critical rules to ensure data integrity (e.g., format, range, uniqueness)." +:+ nl +:+
  "    - **Example Usage**: Provide one practical example of how this column is used in analysis or operations." +:+ nl +:+
  "    - **Known Issues/Limitations**: Identify 1-2 potential data quality issues or limitations." +:+ nl +:+
  "    " +:+ nl +:+
  "    Keep the total response under 200 words." +:+ nl +:+
  "    ".

Definition fallback (table_name : string) (ci : column_info) (e : exn) : string :=
  "- **Business Purpose**: Could not determine purpose for " +:+ column_name ci +:+ "." +:+ nl +:+
  "- **Data Quality Rules**: Must conform to data type " +:+ data_type ci +:+ "." +:+ nl +:+
  "- **Example Usage**: Used for general analysis within the " +:+ table_name +:+ " table." +:+ nl +:+
  "- **Known Issues/Limitations**: LLM description generation failed: " +:+ exn_text e.

Definition _generate_description_with_ollama (table_name : string)
    (ci : column_info) (sample_values : list Sample) (model : string) : M pyval :=
  let prompt := build_prompt table_name ci sample_values in
  let cache_key := _get_cache_key prompt in
  let! cached_response := _load_from_cache cache_key in
  if truthy cached_response then ret cached_response
  else
    try_except
      (let! content := client_chat model prompt in
       let description := strip content in
       let! _ := _save_to_cache cache_key (PyStr description) in
       ret (PyStr description))
      (λ e, ret (PyStr (fallback table_name ci e))).

(** *** The driver *)

(** [.unique()]: the values in the order of their first occurrence. *)
Fixpoint unique_from (seen l : list Sample) : list Sample :=
  match l with
  | [] => []
  | x :: t =>
      if bool_decide (x ∈ seen) then unique_from seen t
      else x :: unique_from (x :: seen) t
  end.

Definition dropna (l : list (option Sample)) : list Sample := omap id l.

Definition column_info_metadata (col : Series) : column_info :=
  {| column_name := series_name col;
     data_type := series_dtype col;
     is_nullable :=
       if existsb (λ c, bool_decide (c = None)) (cells col) then "YES" else "NO" |}.

Definition sample_values_of (col : Series) : list Sample :=
  take 5 (unique_from [] (dropna (cells col))).

(** The body of [for column_name in df.columns], from the columns still
    to visit and the records appended so far. *)
Fixpoint columns_loop (table_name model : string) (cols : list Series)
    (all_column_info : list pyval) : M (list pyval) :=
  match cols with
  | [] => ret all_column_info
  | col :: rest =>
      let! description_md :=
        _generate_description_with_ollama table_name
          (column_info_metadata col) (sample_values_of col) model in
      let! parsed_desc := lift (_parse_markdown_description description_md) in
      let final_column_structure :=
        PyDict [ ("column_name", PyStr (series_name col));
                 ("column_desc", PyList [parsed_desc]) ] in
      columns_loop table_name model rest
        (all_column_info ++ [final_column_structure])
  end.

(** The [try] block of the driver. *)
Definition process_table (csv_file_path model : string) : M pyval :=
  let! df := lift (pd_read_csv csv_file_path) in
  let table_name := path_stem csv_file_path in
  let! all_column_info := columns_loop table_name model df [] in
  ret (PyDict [(table_name, PyList all_column_info)]).

Definition generate_descriptions_from_csv (csv_file_path model : string) : M pyval :=
  if negb (os_path_exists csv_file_path) then ret (PyDict [])
  else try_except (process_table csv_file_path model) (λ e, ret (PyDict [])).

End Pipeline.

(** ** What the patterns compute

    The same search written directly on strings: where a label stands,
    what follows it up to the section boundary.  The regular expressions
    above are shown to compute exactly this. *)

Fixpoint prefix_ci (p s : string) : bool :=
  match p, s with
  | EmptyString, _ => true
  | String a p', String b s' =>
      bool_decide (ascii_lower a = ascii_lower b) && prefix_ci p' s'
  | String _ _, EmptyString => false
  end.

(** The lookahead [(?=\n-|\n\n|$)] holds at this position. *)
Definition at_boundary (s : string) : bool :=
  match s with
  | String c (String d _) =>
      bool_decide (c = LF) && (bool_decide (d = "-"%char) || bool_decide (d = LF))
  | _ => at_end s
  end.

(** The shortest prefix after which the lookahead holds, and the rest. *)
Fixpoint until_boundary (s : string) : string :=
  if at_boundary s then EmptyString
  else match s with
       | String c t => String c (until_boundary t)
       | EmptyString => EmptyString
       end.

Fixpoint after_boundary (s : string) : string :=
  if at_boundary s then s
  else match s with
       | String _ t => after_boundary t
       | EmptyString => EmptyString
       end.

Definition header (label : string) : string := "**" +:+ label +:+ "**:".

(** Group 1 of a match that starts exactly at this position. *)
Fixpoint section_here (labels : list string) (s : string) : option string :=
  match labels with
  | [] => None
  | l :: ls =>
      if prefix_ci (header l) s
      then Some (until_boundary (lstrip (drop_str (String.length (header l)) s)))
      else section_here ls s
  end.

Fixpoint find_section (labels : list string) (s : string) : option string :=
  match section_here labels s with
  | Some g => Some g
  | None =>
      match s with
      | String _ t => find_section labels t
      | EmptyString => None
      end
  end.

Fixpoint labels_re (l : string) (ls : list string) : regex :=
  match ls with
  | [] => lit l
  | l' :: ls' => Alt (lit l) (labels_re l' ls')
  end.

(** The match object of a match whose group 1 is [g]. *)
Definition captured (g : string) : match_obj := {| group1 := Some g |}.

(** The value the extractor binds to a key whose pattern seeks [labels]. *)
Definition field_of (labels : list string) (text : string) : string :=
  match find_section labels text with
  | Some g => strip g
  | None => "N/A"
  end.

(** The dict the extractor returns, from its four values. *)
Definition StructuredDescription (bp dq eu iss : string) : pyval :=
  PyDict [ ("business_purpose", PyStr bp);
           ("data_quality_rules", PyStr dq);
           ("example_usage", PyStr eu);
           ("issues", PyStr iss) ].

(** [v] is what the loop of the extractor stores for [pattern] on [text]:
    the sentinel without a match, the trimmed group 1 with one. *)
Definition extracted (pattern : regex) (text v : string) : Prop :=
  match re_search parse_flags pattern text with
  | None => v = "N/A"
  | Some m => ∃ g, group1 m = Some g ∧ v = strip g ∧ trimmed v
  end.

(** ** Vocabulary of the statements *)

(** Steps 2 and 3 of the loop body, for one column: the description of the
    column, then its structured form. *)
Definition describe_column {Sample : Type}
    (md5_hexdigest : string → string) (repr_list : list Sample → string)
    (ollama_chat : list (string * string) → string → string → outcome string)
    (write_fault : string → option exn)
    (table_name : string) (ci : column_info) (sample_values : list Sample)
    (model : string) : M pyval :=
  let! description_md :=
    _generate_description_with_ollama md5_hexdigest repr_list ollama_chat
      write_fault table_name ci sample_values model in
  lift (_parse_markdown_description description_md).

(** The lookup of [cache_key] in [σ] is taken as a miss by the test
    [if cached_response:]: it returns a value that is not true. *)
Definition misses (cache_key : string) (σ : State) : Prop :=
  ∃ v, _load_from_cache cache_key σ = (Returned v, σ) ∧ truthy v = false.

(** The record the driver appends for a column. *)
Definition column_record (name : string) (parsed_desc : pyval) : pyval :=
  PyDict [ ("column_name", PyStr name); ("column_desc", PyList [parsed_desc]) ].

(** A comparison of [p] with the start of [s] that fails on a character
    of [s]: it fails whatever follows [s]. *)
Fixpoint mismatch (p s : string) : bool :=
  match p, s with
  | String a p', String b s' =>
      if bool_decide (ascii_lower a = ascii_lower b) then mismatch p' s' else true
  | _, _ => false
  end.

(** No header of [labels] starts inside [s], whatever follows [s]. *)
Fixpoint header_free (labels : list string) (s : string) : bool :=
  match s with
  | String _ t => forallb (λ l, mismatch (header l) s) labels && header_free labels t
  | EmptyString => true
  end.

(** [s] has a character that is not whitespace. *)
Definition nonblank (s : string) : Prop := lstrip s ≠ EmptyString.

(** [s] holds the header of a label of [labels] that is as long as any
    of them, followed by a text that is not blank. *)
Definition headed (labels : list string) (s : string) : Prop :=
  ∃ a l tail,
    s = a +:+ header l +:+ tail
    ∧ l ∈ labels
    ∧ (∀ l', l' ∈ labels → (String.length l' ≤ String.length l)%nat)
    ∧ nonblank tail.

Fixpoint has_char (c : ascii) (s : string) : bool :=
  match s with
  | String x t => bool_decide (x = c) || has_char c t
  | EmptyString => false
  end.

(** The state after a call to the model, and after a store. *)
Definition called (model prompt : string) (σ : State) : State :=
  {| files := files σ; chat_log := chat_log σ ++ [(model, prompt)] |}.

Definition stored (path : string) (response : pyval) (σ : State) : State :=
  {| files := <[path := Pickle response]> (files σ); chat_log := chat_log σ |}.

(** The state without the file at [path]. *)
Definition without (path : string) (σ : State) : State :=
  {| files := delete path (files σ); chat_log := chat_log σ |}.

(** [sub in s] *)
Definition contains (sub s : string) : Prop := ∃ a b, s = a +:+ sub +:+ b.

Definition issue_labels : list string := ["Known Issues/Limitations"; "Issues"].

(** The record of a column: its name with one structured description. *)
Definition well_shaped {Sample : Type} (col : @Series Sample) (rec : pyval) : Prop :=
  ∃ bp dq eu iss,
    rec = column_record (series_name col) (StructuredDescription bp dq eu iss).

(** ** A sample run

    The table of the demonstration at the end of the script, cut to the
    columns StoreID and TransactionDate, with collaborators that answer,
    answer with blanks, or fail. *)

Module Demo.

(** A stand-in for the digest: the statements hold for every function
    of the prompt. *)
Definition digest (prompt : string) : string := prompt.

(** Cell values are strings; a list of them prints as Python prints it. *)
Fixpoint join (sep : string) (l : list string) : string :=
  match l with
  | [] => EmptyString
  | [x] => x
  | x :: t => x +:+ sep +:+ join sep t
  end.

Definition repr_list (l : list string) : string :=
  "[" +:+ join ", " (map (λ x, "'" +:+ x +:+ "'") l) +:+ "]".

Definition answer : string :=
  "- **Business Purpose**: Identifies the store of a sale." +:+ nl +:+
  "- **Data Quality Rules**: Must be a known store code." +:+ nl +:+
  "- **Example Usage**: Revenue per store." +:+ nl +:+
  "- **Known Issues/Limitations**: Codes are reused." +:+ nl.

Definition chat_ok (log : list (string * string)) (model prompt : string)
    : outcome string := Returned answer.

Definition chat_blank (log : list (string * string)) (model prompt : string)
    : outcome string := Returned ("  " +:+ nl).

Definition refused : exn :=
  {| exn_class := "ConnectionError"; exn_text := "connection refused" |}.

Definition chat_down (log : list (string * string)) (model prompt : string)
    : outcome string := Raised refused.

Definition disk_ok (path : string) : option exn := None.

Definition denied : exn :=
  {| exn_class := "PermissionError"; exn_text := "[Errno 13] Permission denied" |}.

Definition disk_locked (path : string) : option exn := Some denied.

Definition StoreID : @Series string :=
  {| series_name := "StoreID"; series_dtype := "object";
     cells := [Some "STORE-A"; Some "STORE-B"; Some "STORE-A";
               Some "STORE-C"; Some "STORE-B"] |}.

Definition TransactionDate : @Series string :=
  {| series_name := "TransactionDate"; series_dtype := "object";
     cells := [Some "2025-09-15"; Some "2025-09-15"; Some "2025-09-16";
               Some "2025-09-16"; None] |}.

Definition sales : list (@Series string) := [StoreID; TransactionDate].

Definition file_path : string := "sample_sales_data.csv".
Definition table : string := "sample_sales_data".

Definition exists_sales (path : string) : bool := bool_decide (path = file_path).

Definition not_found : exn :=
  {| exn_class := "FileNotFoundError"; exn_text := "No such file or directory" |}.

Definition read_sales (path : string) : outcome (list (@Series string)) :=
  if bool_decide (path = file_path) then Returned sales else Raised not_found.

Definition parser_error : exn :=
  {| exn_class := "ParserError"; exn_text := "Error tokenizing data" |}.

Definition read_garbled (path : string) : outcome (list (@Series string)) :=
  Raised parser_error.

Definition stem (path : string) : string :=
  if bool_decide (path = file_path) then table else path.

Definition fresh_cache : State := {| files := ∅; chat_log := [] |}.

Definition store_info : column_info := column_info_metadata StoreID.
Definition store_samples : list string := sample_values_of StoreID.
Definition store_prompt : string := build_prompt repr_list table store_info store_samples.
Definition store_file : string := cache_file (_get_cache_key digest store_prompt).

Definition unpickling : exn :=
  {| exn_class := "UnpicklingError"; exn_text := "pickle data was truncated" |}.

(** The cache holds a damaged file, or an empty answer, for StoreID. *)
Definition damaged_cache : State :=
  {| files := {[ store_file := Damaged unpickling ]}; chat_log := [] |}.

Definition empty_entry_cache : State :=
  {| files := {[ store_file := Pickle (PyStr EmptyString) ]}; chat_log := [] |}.

End Demo.

(** ** More vocabulary: warm caches and more of the sample run *)

(** The file at [path] holds the text [text], and the cache test takes it. *)
Definition hot (σ : State) (path text : string) : Prop :=
  files σ !! path = Some (Pickle (PyStr text)) ∧ text ≠ EmptyString.

(** No file of the cache is damaged, and no file holds a true value that
    is not a string. *)
Definition sound (σ : State) : Prop :=
  ∀ path,
    match files σ !! path with
    | Some (Damaged _) => False
    | Some (Pickle v) => truthy v = true → ∃ s, v = PyStr s
    | None => True
    end.

(** The structured description of a text, and the record of a column
    described by a text. *)
Definition structured (text : string) : pyval :=
  StructuredDescription
    (field_of ["Business Purpose"] text)
    (field_of ["Data Quality Rules"] text)
    (field_of ["Example Usage"] text)
    (field_of issue_labels text).

Definition record_of {Sample : Type} (col : @Series Sample) (text : string) : pyval :=
  column_record (series_name col) (structured text).

(** The key and the label of each header the patterns accept. *)
Definition label_keys : list (string * string) :=
  [ ("business_purpose", "Business Purpose");
    ("data_quality_rules", "Data Quality Rules");
    ("example_usage", "Example Usage");
    ("issues", "Known Issues/Limitations");
    ("issues", "Issues") ].

(** [h] is [p] up to the case of its ASCII letters. *)
Fixpoint same_letters (p h : string) : bool :=
  match p, h with
  | EmptyString, EmptyString => true
  | String a p', String b h' =>
      bool_decide (ascii_lower a = ascii_lower b) && same_letters p' h'
  | _, _ => false
  end.

Definition read_no_columns (path : string) : outcome (list (@Series string)) :=
  Returned [].

(** The cache holds the pickle of an integer for StoreID. *)
Definition poisoned_cache : State :=
  {| files := {[ Demo.store_file := Pickle (PyInt 5) ]}; chat_log := [] |}.

(** The cache holds an answer for both columns of the sample table. *)
Definition date_file : string :=
  cache_file (_get_cache_key Demo.digest
    (build_prompt Demo.repr_list Demo.table
       (column_info_metadata Demo.TransactionDate)
       (sample_values_of Demo.TransactionDate))).

Definition warm_cache : State :=
  {| files := {[ Demo.store_file := Pickle (PyStr Demo.answer);
                 date_file := Pickle (PyStr "**Issues**: late entries") ]};
     chat_log := [] |}.

(** ** Vocabulary of the fallback records *)





(** A key as [hexdigest()] returns it: 32 characters among 0-9 and a-f. *)
Definition is_hex (c : ascii) : bool :=
  let n := nat_of_ascii c in
  (((48 <=? n) && (n <=? 57)) || ((97 <=? n) && (n <=? 102)))%nat.

Fixpoint all_hex (s : string) : bool :=
  match s with
  | String c t => is_hex c && all_hex t
  | EmptyString => true
  end.

Definition hexdigest (k : string) : Prop :=
  String.length k = 32%nat ∧ all_hex k = true.

(** ** Properties of the string helpers *)

Lemma lstrip_head c t s : lstrip s = String c t → isspace c = false.
Proof.
  induction s as [|a s IH]; simpl; [discriminate|].
  destruct (isspace a) eqn:Ha; [exact IH|].
  intros [= <- _]. exact Ha.
Qed.

Lemma rstrip_keeps_head c t :
  isspace c = false → ∃ r, rstrip (String c t) = String c r.
Proof.
  intros Hc. simpl. destruct (rstrip t); [rewrite Hc|]; eauto.
Qed.

Lemma rstrip_last s t c :
  rstrip s = t +:+ String c EmptyString → isspace c = false.
Proof.
  revert t. induction s as [|a s IH]; intros t; simpl.
  - destruct t; discriminate.
  - destruct (rstrip s) as [|b r] eqn:Hr.
    + destruct (isspace a) eqn:Ha.
      * destruct t; discriminate.
      * destruct t as [|x [|y t]]; simpl; try discriminate.
        intros [= <-]. exact Ha.
    + destruct t as [|x t]; simpl; [discriminate|].
      intros [= _ Heq]. apply (IH t). exact Heq.
Qed.

Lemma append_assoc_str a b c : (a +:+ b) +:+ c = a +:+ (b +:+ c).
Proof.
  induction a as [|x a IH]; [done|].
  change (String x ((a +:+ b) +:+ c) = String x (a +:+ (b +:+ c))).
  by rewrite IH.
Qed.

Lemma strip_trimmed s : trimmed (strip s).
Proof.
  unfold strip. split.
  - intros c t Heq. destruct (lstrip s) as [|a u] eqn:Hl; [discriminate|].
    pose proof (lstrip_head _ _ _ Hl) as Ha.
    destruct (rstrip_keeps_head a u Ha) as [r Hr].
    rewrite Hr in Heq. by injection Heq as <- _.
  - intros t c Heq. by apply rstrip_last in Heq.
Qed.

(** ** The matcher on the patterns of the extractor *)

Lemma ascii_lower_LF c : ascii_lower LF = ascii_lower c ↔ LF = c.
Proof.
  split; [|by intros <-].
  destruct c as [[] [] [] [] [] [] [] []]; vm_compute; congruence.
Qed.

Lemma ascii_lower_dash c : ascii_lower "-"%char = ascii_lower c ↔ "-"%char = c.
Proof.
  split; [|by intros <-].
  destruct c as [[] [] [] [] [] [] [] []]; vm_compute; congruence.
Qed.

Lemma drop_str_0 s : drop_str 0 s = s.
Proof. by destruct s. Qed.

Lemma rmatch_lit L s g k :
  rmatch parse_flags (lit L) s g k =
  if prefix_ci L s then k (drop_str (String.length L) s) g else None.
Proof.
  revert s. induction L as [|a L IH]; intros s; simpl.
  - by destruct s.
  - destruct s as [|x t]; [done|].
    unfold char_eq; simpl. case_bool_decide; simpl; [apply IH|done].
Qed.

Lemma prefix_ci_app A B s :
  prefix_ci (A +:+ B) s = prefix_ci A s && prefix_ci B (drop_str (String.length A) s).
Proof.
  revert s. induction A as [|a A IH]; intros s; simpl.
  - by destruct s.
  - destruct s as [|x t]; [done|]. rewrite IH. by rewrite andb_assoc.
Qed.

Lemma drop_str_app_length A B s :
  drop_str (String.length (A +:+ B)) s =
  drop_str (String.length B) (drop_str (String.length A) s).
Proof.
  revert s. induction A as [|a A IH]; intros s; simpl.
  - by destruct s.
  - destruct s as [|x t]; [|apply IH]. by destruct (String.length B), (String.length (A +:+ B)).
Qed.

Lemma rmatch_boundary s g k :
  rmatch parse_flags boundary s g k = if at_boundary s then k s g else None.
Proof.
  unfold boundary. cbn [rmatch]. rewrite !rmatch_lit.
  destruct s as [|c [|d t]]; simpl; [done| |];
    rewrite ?(bool_decide_ext _ _ (ascii_lower_LF c)),
            ?(bool_decide_ext _ _ (ascii_lower_LF d)),
            ?(bool_decide_ext _ _ (ascii_lower_dash d));
    repeat (case_bool_decide; simpl); congruence.
Qed.

#[local] Arguments at_boundary : simpl never.

Lemma star_greedy_total {A} (k : string → option A) s :
  (∀ t, is_Some (k t)) → star_greedy isspace k s = k (lstrip s).
Proof.
  intros Hk. induction s as [|c t IH]; simpl; [done|].
  destruct (isspace c); [|done].
  rewrite IH. by destruct (Hk (lstrip t)) as [m ->].
Qed.

Lemma star_lazy_ext {A} p (k k' : string → option A) s :
  (∀ t, k t = k' t) → star_lazy p k s = star_lazy p k' s.
Proof.
  intros Hk. induction s as [|c t IH]; simpl; rewrite Hk; [done|].
  by rewrite IH.
Qed.

Lemma star_lazy_boundary {A} (f : string → A) s :
  star_lazy (cls_matches parse_flags Dot)
    (λ t, if at_boundary t then Some (f t) else None) s
  = Some (f (after_boundary s)).
Proof.
  induction s as [|c t IH]; simpl; [done|].
  by destruct (at_boundary (String c t)).
Qed.

Lemma after_boundary_length s :
  (String.length (after_boundary s) ≤ String.length s)%nat.
Proof.
  induction s as [|c t IH]; simpl; [by destruct (at_boundary EmptyString)|].
  destruct (at_boundary (String c t)); simpl; lia.
Qed.

Lemma consumed_until_boundary s : consumed s (after_boundary s) = until_boundary s.
Proof.
  unfold consumed. induction s as [|c t IH]; simpl.
  - by destruct (at_boundary EmptyString).
  - destruct (at_boundary (String c t)); simpl.
    + by rewrite Nat.sub_diag.
    + pose proof (after_boundary_length t).
      replace (S (String.length t) - String.length (after_boundary t))%nat
        with (S (String.length t - String.length (after_boundary t)))%nat by lia.
      simpl. by rewrite IH.
Qed.

(** [\s*(.*?)(?=\n-|\n\n|$)] always matches: it skips the whitespace and
    captures up to the first boundary. *)
Lemma rmatch_capture s g :
  rmatch parse_flags
    (Cat (Star true Space) (Cat (Group (Star false Dot)) boundary)) s g
    (λ _ g', Some {| group1 := g' |})
  = Some {| group1 := Some (until_boundary (lstrip s)) |}.
Proof.
  cbn [rmatch].
  assert (Hk : ∀ u,
    star_lazy (cls_matches parse_flags Dot)
      (λ s', rmatch parse_flags boundary s' (Some (consumed u s'))
               (λ _ g', Some {| group1 := g' |})) u
    = Some {| group1 := Some (until_boundary u) |}).
  { intros u.
    rewrite <- consumed_until_boundary.
    rewrite <- (star_lazy_boundary (λ t, {| group1 := Some (consumed u t) |}) u).
    apply star_lazy_ext. intros t. apply rmatch_boundary. }
  rewrite (star_greedy_total _ s).
  - apply Hk.
  - intros t. rewrite Hk. eauto.
Qed.

Lemma prefix_ci_header l s :
  prefix_ci (header l) s =
  prefix_ci "**" s && prefix_ci l (drop_str 2 s)
  && prefix_ci "**:" (drop_str (String.length l) (drop_str 2 s)).
Proof.
  unfold header. rewrite !prefix_ci_app. by rewrite andb_assoc.
Qed.

Lemma drop_str_header l s :
  drop_str (String.length (header l)) s =
  drop_str 3 (drop_str (String.length l) (drop_str 2 s)).
Proof. unfold header. by rewrite !drop_str_app_length. Qed.

(** One label, then [\*\*:] and the capture, at a position that follows
    the opening [\*\*]. *)
Lemma rmatch_label l s :
  rmatch parse_flags (lit l) (drop_str 2 s) None
    (λ s1 g1, rmatch parse_flags (lit "**:") s1 g1
       (λ s2 g2, rmatch parse_flags
          (Cat (Star true Space) (Cat (Group (Star false Dot)) boundary)) s2 g2
          (λ _ g', Some {| group1 := g' |})))
  = if prefix_ci l (drop_str 2 s)
       && prefix_ci "**:" (drop_str (String.length l) (drop_str 2 s))
    then Some (captured (until_boundary
                 (lstrip (drop_str 3 (drop_str (String.length l) (drop_str 2 s))))))
    else None.
Proof.
  rewrite rmatch_lit. destruct (prefix_ci l (drop_str 2 s)); [|done].
  rewrite rmatch_lit. cbn [andb].
  destruct (prefix_ci "**:" _); [|done].
  apply rmatch_capture.
Qed.

Lemma match_here_section l ls s :
  match_here parse_flags (section_pattern (labels_re l ls)) s
  = captured <$> section_here (l :: ls) s.
Proof.
  unfold match_here, section_pattern.
  change (rmatch parse_flags (Cat (lit "**") ?r) s None ?k)
    with (rmatch parse_flags (lit "**") s None (λ s' g', rmatch parse_flags r s' g' k)).
  rewrite rmatch_lit.
  change (String.length "**") with 2.
  revert l. induction ls as [|l' ls IH]; intros l.
  - cbn [labels_re rmatch section_here].
    rewrite rmatch_label, prefix_ci_header, drop_str_header.
    destruct (prefix_ci "**" s); [|done]. cbn [andb].
    by destruct (_ && _).
  - cbn [labels_re section_here]. cbn [rmatch].
    rewrite rmatch_label.
    specialize (IH l'). cbn [rmatch] in IH.
    rewrite prefix_ci_header, drop_str_header.
    destruct (prefix_ci "**" s); cbn [andb].
    + destruct (_ && _); [done|]. exact IH.
    + exact IH.
Qed.

Lemma re_search_section l ls s :
  re_search parse_flags (section_pattern (labels_re l ls)) s
  = captured <$> find_section (l :: ls) s.
Proof.
  induction s as [|c t IH]; cbn [re_search find_section];
    rewrite match_here_section;
    destruct (section_here (l :: ls) _); try done.
Qed.

(** ** The extractor *)

Lemma parse_field_section l ls text :
  parse_field (section_pattern (labels_re l ls)) (PyStr text)
  = Returned (PyStr (field_of (l :: ls) text)).
Proof.
  unfold parse_field, field_of. rewrite re_search_section.
  by destruct (find_section (l :: ls) text).
Qed.

Lemma parse_markdown_eq text :
  _parse_markdown_description (PyStr text) =
  Returned (StructuredDescription
    (field_of ["Business Purpose"] text)
    (field_of ["Data Quality Rules"] text)
    (field_of ["Example Usage"] text)
    (field_of ["Known Issues/Limitations"; "Issues"] text)).
Proof.
  unfold _parse_markdown_description, patterns.
  change (lit "Business Purpose") with (labels_re "Business Purpose" []).
  change (lit "Data Quality Rules") with (labels_re "Data Quality Rules" []).
  change (lit "Example Usage") with (labels_re "Example Usage" []).
  change (Alt (lit "Known Issues/Limitations") (lit "Issues"))
    with (labels_re "Known Issues/Limitations" ["Issues"]).
  cbn [parse_loop]. rewrite !parse_field_section. reflexivity.
Qed.

Lemma extracted_field_of l ls text :
  extracted (section_pattern (labels_re l ls)) text (field_of (l :: ls) text).
Proof.
  unfold extracted, field_of. rewrite re_search_section.
  destruct (find_section (l :: ls) text) as [g|]; simpl; [|done].
  exists g. split_and!; [done..|apply strip_trimmed].
Qed.

(** C4. On every text the field extractor returns, without raising, a
    dict with exactly the keys business_purpose, data_quality_rules,
    example_usage and issues; a key whose pattern finds no match is bound
    to "N/A", and a key whose pattern matches is bound to group 1 of the
    match with the whitespace at both ends removed. *)
Theorem parse_markdown_complete (text : string) :
  ∃ d,
    _parse_markdown_description (PyStr text) = Returned (PyDict d)
    ∧ dict_keys d
      = ["business_purpose"; "data_quality_rules"; "example_usage"; "issues"]
    ∧ ∀ key pattern, (key, pattern) ∈ patterns →
        ∃ v, dict_get d key = Some (PyStr v) ∧ extracted pattern text v.
Proof.
  eexists. split; [apply parse_markdown_eq|].
  split; [reflexivity|].
  intros key pattern Hin. unfold patterns in Hin.
  repeat (apply elem_of_cons in Hin as [[= -> ->]|Hin]);
    [| | | |by apply elem_of_nil in Hin];
    (eexists; split; [reflexivity|]).
  - apply (extracted_field_of "Business Purpose" []).
  - apply (extracted_field_of "Data Quality Rules" []).
  - apply (extracted_field_of "Example Usage" []).
  - apply (extracted_field_of "Known Issues/Limitations" ["Issues"]).
Qed.

(** ** One column: cache, model call and fallback *)

Section OneColumn.

Variable md5_hexdigest : string → string.
Context {Sample : Type}.
Variable repr_list : list Sample → string.
Variable ollama_chat : list (string * string) → string → string → outcome string.
Variable write_fault : string → option exn.

Variables (table_name : string) (ci : column_info) (sample_values : list Sample).

Abbreviation prompt := (build_prompt repr_list table_name ci sample_values).
Abbreviation cache_key := (_get_cache_key md5_hexdigest prompt).
Abbreviation generate :=
  (_generate_description_with_ollama md5_hexdigest repr_list ollama_chat
     write_fault table_name ci sample_values).
Abbreviation describe :=
  (describe_column md5_hexdigest repr_list ollama_chat write_fault
     table_name ci sample_values).

Lemma generate_hit model σ v :
  files σ !! cache_file cache_key = Some (Pickle v) →
  truthy v = true →
  generate model σ = (Returned v, σ).
Proof.
  intros Hf Hv. unfold _generate_description_with_ollama, bind, _load_from_cache.
  rewrite Hf, Hv. reflexivity.
Qed.

Lemma generate_damaged model σ e :
  files σ !! cache_file cache_key = Some (Damaged e) →
  generate model σ = (Raised e, σ).
Proof.
  intros Hf. unfold _generate_description_with_ollama, bind, _load_from_cache.
  by rewrite Hf.
Qed.

Lemma generate_miss model σ :
  misses cache_key σ →
  generate model σ =
  match ollama_chat (chat_log σ) model prompt with
  | Returned content =>
      match write_fault (cache_file cache_key) with
      | None =>
          (Returned (PyStr (strip content)),
           stored (cache_file cache_key) (PyStr (strip content))
             (called model prompt σ))
      | Some e =>
          (Returned (PyStr (fallback table_name ci e)), called model prompt σ)
      end
  | Raised e =>
      (Returned (PyStr (fallback table_name ci e)), called model prompt σ)
  end.
Proof.
  intros (v & Hl & Hv).
  unfold _generate_description_with_ollama, bind. rewrite Hl, Hv.
  unfold try_except, bind, client_chat, _save_to_cache, ret; simpl.
  destruct (ollama_chat _ _ _); [|done].
  by destruct (write_fault _).
Qed.

Lemma misses_absent σ :
  files σ !! cache_file cache_key = None → misses cache_key σ.
Proof.
  intros Hf. exists PyNone. unfold _load_from_cache. by rewrite Hf.
Qed.

Lemma misses_falsy σ v :
  files σ !! cache_file cache_key = Some (Pickle v) → truthy v = false →
  misses cache_key σ.
Proof.
  intros Hf Hv. exists v. unfold _load_from_cache. by rewrite Hf.
Qed.

Lemma truthy_nonempty s : s ≠ EmptyString → truthy (PyStr s) = true.
Proof. intros Hs. simpl. by rewrite bool_decide_eq_false_2. Qed.

(** A first run that misses, gets an answer that is not blank and
    stores it leaves a state in which every run, with any model, is a
    hit that changes nothing. *)
Lemma generate_then_hit model model' σ content :
  misses cache_key σ →
  ollama_chat (chat_log σ) model prompt = Returned content →
  strip content ≠ EmptyString →
  write_fault (cache_file cache_key) = None →
  let σ1 := stored (cache_file cache_key) (PyStr (strip content))
              (called model prompt σ) in
  generate model σ = (Returned (PyStr (strip content)), σ1)
  ∧ generate model' σ1 = (Returned (PyStr (strip content)), σ1).
Proof.
  intros Hm Hc Hs Hw σ1. split.
  - rewrite generate_miss by done. by rewrite Hc, Hw.
  - apply generate_hit; [|by apply truthy_nonempty].
    subst σ1. simpl. apply lookup_insert_eq.
Qed.

(** C1, as the code has it. When the first run misses the cache, the
    model answers with a text that is not blank and the answer is
    stored, two runs on the same input issue exactly one call to the
    model: the second run finds the entry stored under the key of the
    same prompt, returns it, changes nothing, and yields the same
    structured description as the first. *)
Theorem second_run_served_from_cache model σ content :
  misses cache_key σ →
  ollama_chat (chat_log σ) model prompt = Returned content →
  strip content ≠ EmptyString →
  write_fault (cache_file cache_key) = None →
  ∃ d σ1,
    describe model σ = (Returned d, σ1)
    ∧ files σ1 !! cache_file cache_key = Some (Pickle (PyStr (strip content)))
    ∧ describe model σ1 = (Returned d, σ1)
    ∧ chat_log σ1 = (chat_log σ ++ [(model, prompt)])%list.
Proof.
  intros Hm Hc Hs Hw.
  destruct (generate_then_hit model model σ content Hm Hc Hs Hw) as [H1 H2].
  eexists _, _. unfold describe_column, bind, lift.
  rewrite H1, H2, parse_markdown_eq. split_and!; try reflexivity.
  simpl. apply lookup_insert_eq.
Qed.

(** C9. The key is computed from the prompt, and the prompt is built
    from the table name, the column metadata and the samples only.  So
    after a run with one model has stored its answer, a run on the same
    input with any other model returns that answer and makes no call:
    the log of calls still ends with the call to the first model. *)
Theorem cache_ignores_model model1 model2 σ content :
  misses cache_key σ →
  ollama_chat (chat_log σ) model1 prompt = Returned content →
  strip content ≠ EmptyString →
  write_fault (cache_file cache_key) = None →
  ∃ σ1,
    generate model1 σ = (Returned (PyStr (strip content)), σ1)
    ∧ generate model2 σ1 = (Returned (PyStr (strip content)), σ1)
    ∧ chat_log σ1 = (chat_log σ ++ [(model1, prompt)])%list.
Proof.
  intros Hm Hc Hs Hw.
  destruct (generate_then_hit model1 model2 σ content Hm Hc Hs Hw) as [H1 H2].
  eexists. split_and!; [exact H1|exact H2|reflexivity].
Qed.

(** C10. An entry that is present but not true (the empty string, None,
    0, an empty list) is taken as a miss: the run calls the model, and
    returns what it returns when the entry is absent. *)
Theorem falsy_entry_is_a_miss model σ v :
  files σ !! cache_file cache_key = Some (Pickle v) →
  truthy v = false →
  ∃ r σ' σ'',
    generate model σ = (r, σ')
    ∧ chat_log σ' = (chat_log σ ++ [(model, prompt)])%list
    ∧ generate model (without (cache_file cache_key) σ) = (r, σ'').
Proof.
  intros Hf Hv.
  rewrite (generate_miss model σ) by by eapply misses_falsy.
  rewrite (generate_miss model (without _ σ))
    by (apply misses_absent; simpl; apply lookup_delete_eq).
  simpl. destruct (ollama_chat _ _ _); [destruct (write_fault _)|];
    eexists _, _, _; split_and!; reflexivity.
Qed.

(** When the model answers and the store fails, the handler written
    for a failed generation runs: the answer is dropped and the fallback
    text, with the cause of the store failure, is returned. *)
Lemma store_failure_gives_fallback model σ content e :
  misses cache_key σ →
  ollama_chat (chat_log σ) model prompt = Returned content →
  write_fault (cache_file cache_key) = Some e →
  generate model σ
  = (Returned (PyStr (fallback table_name ci e)), called model prompt σ).
Proof.
  intros Hm Hc Hw. rewrite generate_miss by done. by rewrite Hc, Hw.
Qed.

End OneColumn.

(** ** The fallback text under the extractor *)

Lemma prefix_ci_refl p rest : prefix_ci p (p +:+ rest) = true.
Proof.
  induction p as [|a p IH]; simpl; [done|].
  by rewrite bool_decide_eq_true_2.
Qed.

Lemma drop_str_length_app p rest : drop_str (String.length p) (p +:+ rest) = rest.
Proof. induction p as [|a p IH]; simpl; [by destruct rest|done]. Qed.

Lemma section_here_header l ls rest :
  section_here (l :: ls) (header l +:+ rest) = Some (until_boundary (lstrip rest)).
Proof.
  cbn [section_here]. by rewrite prefix_ci_refl, drop_str_length_app.
Qed.

Lemma section_here_elem l ls rest :
  l ∈ ls → is_Some (section_here ls (header l +:+ rest)).
Proof.
  induction ls as [|l' ls IH]; intros Hin; [by apply elem_of_nil in Hin|].
  cbn [section_here]. destruct (prefix_ci (header l') _) eqn:Hp; [eauto|].
  apply elem_of_cons in Hin as [->|Hin]; [|by apply IH].
  by rewrite prefix_ci_refl in Hp.
Qed.

Lemma find_section_cons_Some ls c s :
  is_Some (find_section ls s) → is_Some (find_section ls (String c s)).
Proof. intros Hs. cbn [find_section]. by destruct (section_here ls _). Qed.

Lemma find_section_app_Some ls a s :
  is_Some (find_section ls s) → is_Some (find_section ls (a +:+ s)).
Proof.
  intros Hs. induction a as [|c a IH]; [done|].
  by apply find_section_cons_Some.
Qed.

Lemma find_section_found ls l a rest :
  l ∈ ls → is_Some (find_section ls (a +:+ header l +:+ rest)).
Proof.
  intros Hin. apply find_section_app_Some.
  destruct (section_here_elem l ls rest Hin) as [g Hg].
  destruct (header l +:+ rest); cbn [find_section]; rewrite Hg; eauto.
Qed.

Lemma mismatch_prefix p s x : mismatch p s = true → prefix_ci p (s +:+ x) = false.
Proof.
  revert s. induction p as [|a p IH]; intros [|b s]; simpl; try done.
  case_bool_decide; [apply IH|done].
Qed.

Lemma section_here_mismatch ls s x :
  forallb (λ l, mismatch (header l) s) ls = true → section_here ls (s +:+ x) = None.
Proof.
  induction ls as [|l ls IH]; [done|]. cbn [forallb section_here].
  intros [Hl Hls]%andb_prop. rewrite (mismatch_prefix _ _ _ Hl). by apply IH.
Qed.

Lemma find_section_header_free ls s x :
  header_free ls s = true → find_section ls (s +:+ x) = find_section ls x.
Proof.
  induction s as [|c s IH]; [done|]. cbn [header_free].
  intros [Hc Hs]%andb_prop.
  change (String c s +:+ x) with (String c (s +:+ x)). cbn [find_section].
  change (String c (s +:+ x)) with (String c s +:+ x).
  rewrite (section_here_mismatch _ _ _ Hc). by apply IH.
Qed.

Lemma ascii_lower_star c : ascii_lower "*"%char = ascii_lower c ↔ "*"%char = c.
Proof.
  split; [|by intros <-].
  destruct c as [[] [] [] [] [] [] [] []]; vm_compute; congruence.
Qed.

Lemma nostar_header_free ls a : has_char "*" a = false → header_free ls a = true.
Proof.
  induction a as [|c a IH]; [done|]. cbn [has_char header_free].
  intros [Hc Ha]%orb_false_elim. rewrite (IH Ha), andb_true_r.
  apply forallb_forall. intros l _. unfold header. simpl.
  rewrite bool_decide_eq_false_2; [done|].
  intros Heq. apply (proj1 (ascii_lower_star c)) in Heq.
  apply bool_decide_eq_false_1 in Hc. by apply Hc.
Qed.

Lemma has_char_app c a b : has_char c (a +:+ b) = has_char c a || has_char c b.
Proof. induction a as [|x a IH]; simpl; [done|]. by rewrite IH, orb_assoc. Qed.

Lemma until_boundary_no_LF s : has_char LF s = false → until_boundary s = s.
Proof.
  induction s as [|c s IH]; [done|]. cbn [has_char until_boundary].
  intros [Hc Hs]%orb_false_elim.
  assert (at_boundary (String c s) = false) as ->.
  { unfold at_boundary, at_end. destruct s; rewrite Hc; done. }
  by rewrite IH.
Qed.

(** The fallback text, cut at its four headers. *)
Lemma fallback_eq t ci e :
  fallback t ci e =
  "- " +:+ header "Business Purpose" +:+ " Could not determine purpose for "
    +:+ column_name ci +:+ "." +:+ nl +:+
  "- " +:+ header "Data Quality Rules" +:+ " Must conform to data type "
    +:+ data_type ci +:+ "." +:+ nl +:+
  "- " +:+ header "Example Usage" +:+ " Used for general analysis within the "
    +:+ t +:+ " table." +:+ nl +:+
  "- " +:+ header "Known Issues/Limitations"
    +:+ " LLM description generation failed: " +:+ exn_text e.
Proof. reflexivity. Qed.

Lemma find_section_here ls s g :
  section_here ls s = Some g → find_section ls s = Some g.
Proof. intros Hg. destruct s; cbn [find_section]; by rewrite Hg. Qed.

Lemma fallback_patterns_match t ci e key pattern :
  (key, pattern) ∈ patterns →
  is_Some (re_search parse_flags pattern (fallback t ci e)).
Proof.
  intros Hin. unfold patterns in Hin. rewrite fallback_eq.
  repeat (apply elem_of_cons in Hin as [[= -> ->]|Hin]);
    [| | | |by apply elem_of_nil in Hin].
  - rewrite (re_search_section "Business Purpose" []). apply fmap_is_Some.
    apply find_section_found. by left.
  - rewrite (re_search_section "Data Quality Rules" []). apply fmap_is_Some.
    do 6 apply find_section_app_Some.
    apply find_section_found. by left.
  - rewrite (re_search_section "Example Usage" []). apply fmap_is_Some.
    do 12 apply find_section_app_Some.
    apply find_section_found. by left.
  - rewrite (re_search_section "Known Issues/Limitations" ["Issues"]).
    apply fmap_is_Some.
    do 18 apply find_section_app_Some.
    apply (find_section_found _ "Known Issues/Limitations" "- "
             (" LLM description generation failed: " +:+ exn_text e)).
    by left.
Qed.

(** A section found in a headed text is not empty: the search stops at
    the header at the latest, and what follows it is not blank. *)
Lemma capture_nonempty rest :
  nonblank rest → strip (until_boundary (lstrip rest)) ≠ EmptyString.
Proof.
  unfold nonblank. destruct (lstrip rest) as [|c u] eqn:Hl; [done|]. intros _.
  pose proof (lstrip_head _ _ _ Hl) as Hc.
  assert (at_boundary (String c u) = false) as Hb.
  { unfold at_boundary, at_end.
    destruct u; case_bool_decide; subst; try done; by vm_compute in Hc. }
  cbn [until_boundary]. rewrite Hb. unfold strip. cbn [lstrip]. rewrite Hc.
  by destruct (rstrip_keeps_head c (until_boundary u) Hc) as [r ->].
Qed.

Lemma nonblank_app x tail : nonblank tail → nonblank (x +:+ tail).
Proof.
  unfold nonblank. intros Ht. induction x as [|c x IH]; [done|].
  change (String c x +:+ tail) with (String c (x +:+ tail)). cbn [lstrip].
  by destruct (isspace c).
Qed.

Lemma drop_str_app_le n p tail :
  (n ≤ String.length p)%nat → ∃ x, drop_str n (p +:+ tail) = x +:+ tail.
Proof.
  revert p. induction n as [|n IH]; intros p Hn.
  - exists p. by destruct (p +:+ tail).
  - destruct p as [|c p]; simpl in Hn; [lia|].
    change (String c p +:+ tail) with (String c (p +:+ tail)). cbn [drop_str].
    apply IH. lia.
Qed.

Lemma length_append_str a b :
  String.length (a +:+ b) = (String.length a + String.length b)%nat.
Proof.
  induction a as [|c a IH]; [done|].
  change (String c a +:+ b) with (String c (a +:+ b)). simpl. by rewrite IH.
Qed.

Lemma section_here_inv ls s g :
  section_here ls s = Some g →
  ∃ l, l ∈ ls ∧ g = until_boundary (lstrip (drop_str (String.length (header l)) s)).
Proof.
  induction ls as [|l ls IH]; [done|]. cbn [section_here].
  destruct (prefix_ci (header l) s).
  - intros [= <-]. exists l. split; [by left|done].
  - intros (l' & Hin & ->)%IH. exists l'. split; [by right|done].
Qed.

Lemma section_here_headed ls s g :
  headed ls s → section_here ls s = Some g → strip g ≠ EmptyString.
Proof.
  intros (a & l & tail & -> & Hin & Hmax & Htail) (l' & Hin' & ->)%section_here_inv.
  apply capture_nonempty.
  rewrite <- append_assoc_str.
  destruct (drop_str_app_le (String.length (header l')) (a +:+ header l) tail)
    as [x ->]; [|by apply nonblank_app].
  rewrite length_append_str. unfold header. rewrite !length_append_str.
  specialize (Hmax l' Hin'). simpl. lia.
Qed.



Lemma headed_here ls l tail :
  l ∈ ls → (∀ l', l' ∈ ls → (String.length l' ≤ String.length l)%nat) →
  nonblank tail → headed ls (header l +:+ tail).
Proof. intros Hin Hmax Htail. by exists EmptyString, l, tail. Qed.

Lemma find_section_headed ls s :
  headed ls s → ∃ g, find_section ls s = Some g ∧ strip g ≠ EmptyString.
Proof.
  intros (a & l & tail & -> & Hin & Hmax & Htail).
  induction a as [|c a IH].
  - destruct (section_here_elem l ls tail Hin) as [g Hg].
    exists g. split; [by apply find_section_here|].
    eapply section_here_headed; [|done]. by apply headed_here.
  - change (String c a +:+ header l +:+ tail)
      with (String c (a +:+ header l +:+ tail)).
    cbn [find_section].
    destruct (section_here ls (String c (a +:+ header l +:+ tail))) as [g|] eqn:Hg.
    + exists g. split; [done|]. eapply section_here_headed; [|done].
      by exists (String c a), l, tail.
    + exact IH.
Qed.

Lemma field_of_headed ls s : headed ls s → field_of ls s ≠ EmptyString.
Proof.
  intros (g & Hg & Hne)%find_section_headed. unfold field_of. by rewrite Hg.
Qed.



Lemma fallback_issues t ci e :
  has_char "*" t = false →
  has_char "*" (column_name ci) = false →
  has_char "*" (data_type ci) = false →
  find_section issue_labels (fallback t ci e)
  = Some (until_boundary ("LLM description generation failed: " +:+ exn_text e)).
Proof.
  intros Ht Hc Hd. rewrite fallback_eq.
  rewrite !find_section_header_free
    by first [ by vm_compute | by apply nostar_header_free ].
  apply find_section_here. unfold issue_labels.
  by rewrite section_here_header.
Qed.

Lemma contains_app_l sub a s : contains sub s → contains sub (a +:+ s).
Proof.
  intros (u & v & ->). exists (a +:+ u), v. by rewrite append_assoc_str.
Qed.

Lemma contains_here sub rest : contains sub (sub +:+ rest).
Proof. by exists EmptyString, rest. Qed.

Lemma fallback_states_type t ci e :
  contains ("Must conform to data type " +:+ data_type ci +:+ ".") (fallback t ci e).
Proof.
  exists ("- **Business Purpose**: Could not determine purpose for "
            +:+ column_name ci +:+ "." +:+ nl +:+ "- **Data Quality Rules**: "),
         (nl +:+ "- **Example Usage**: Used for general analysis within the "
            +:+ t +:+ " table." +:+ nl
            +:+ "- **Known Issues/Limitations**: LLM description generation failed: "
            +:+ exn_text e).
  rewrite !append_assoc_str. reflexivity.
Qed.

(** C6, as the code has it. The fallback text is a function of the table
    name, the column name, the declared type and the text of the failure:
    it is the same for a nullable and a non-nullable column.  It states
    the declared type.  When neither names nor type contain an asterisk,
    the issues field of its structured description is
    "LLM description generation failed: " followed by the text of the
    failure up to its first section boundary, trimmed: the whole text
    when it has no line break. *)
Theorem fallback_records_failure t ci e :
  has_char "*" t = false →
  has_char "*" (column_name ci) = false →
  has_char "*" (data_type ci) = false →
  (∀ ci', column_name ci' = column_name ci → data_type ci' = data_type ci →
          fallback t ci' e = fallback t ci e)
  ∧ contains ("Must conform to data type " +:+ data_type ci +:+ ".") (fallback t ci e)
  ∧ ∃ bp dq eu iss,
      _parse_markdown_description (PyStr (fallback t ci e))
        = Returned (StructuredDescription bp dq eu iss)
      ∧ iss = strip (until_boundary
                       ("LLM description generation failed: " +:+ exn_text e))
      ∧ (has_char LF (exn_text e) = false →
         iss = strip ("LLM description generation failed: " +:+ exn_text e)).
Proof.
  intros Ht Hc Hd. split_and!.
  - intros ci' Hn Hty. unfold fallback. by rewrite Hn, Hty.
  - apply fallback_states_type.
  - eexists _, _, _, _. split; [apply parse_markdown_eq|].
    unfold field_of. fold issue_labels. rewrite (fallback_issues t ci e Ht Hc Hd).
    split; [done|]. intros He. rewrite until_boundary_no_LF; [done|].
    by rewrite has_char_app, He.
Qed.

(** ** The driver *)

Lemma parse_returned v d :
  _parse_markdown_description v = Returned d →
  ∃ bp dq eu iss, d = StructuredDescription bp dq eu iss.
Proof.
  destruct v as [| | |text| |]; try discriminate.
  rewrite parse_markdown_eq. intros [= <-]. by eexists _, _, _, _.
Qed.


Lemma bind_assoc {A B C} (m : M A) (f : A → M B) (g : B → M C) σ :
  bind (bind m f) g σ = bind m (λ a, bind (f a) g) σ.
Proof. unfold bind. by destruct (m σ) as [[a|e] σ1]. Qed.

Lemma bind_ext {A B} (m : M A) (f g : A → M B) σ :
  (∀ a σ1, f a σ1 = g a σ1) → bind m f σ = bind m g σ.
Proof. intros Hfg. unfold bind. by destruct (m σ) as [[a|e] σ1]. Qed.

Section Driver.

Variable md5_hexdigest : string → string.
Context {Sample : Type} `{EqDecision Sample}.
Variable repr_list : list Sample → string.
Variable ollama_chat : list (string * string) → string → string → outcome string.
Variable write_fault : string → option exn.
Variable os_path_exists : string → bool.
Variable pd_read_csv : string → outcome (list (@Series Sample)).
Variable path_stem : string → string.

Abbreviation loop :=
  (columns_loop md5_hexdigest repr_list ollama_chat write_fault).
Abbreviation process :=
  (process_table md5_hexdigest repr_list ollama_chat write_fault
     pd_read_csv path_stem).
Abbreviation run :=
  (generate_descriptions_from_csv md5_hexdigest repr_list ollama_chat
     write_fault os_path_exists pd_read_csv path_stem).
Abbreviation prompt_of table col :=
  (build_prompt repr_list table (column_info_metadata col) (sample_values_of col)).
Abbreviation key_of table col := (_get_cache_key md5_hexdigest (prompt_of table col)).

(** One turn of the loop is [describe_column] followed by the append. *)
Lemma columns_loop_cons table model col cols acc σ :
  loop table model (col :: cols) acc σ =
  bind (describe_column md5_hexdigest repr_list ollama_chat write_fault table
          (column_info_metadata col) (sample_values_of col) model)
       (λ parsed_desc,
          loop table model cols
            (acc ++ [column_record (series_name col) parsed_desc])%list) σ.
Proof. unfold describe_column. by rewrite bind_assoc. Qed.

Lemma columns_loop_shape table model cols acc σ out σ' :
  loop table model cols acc σ = (Returned out, σ') →
  ∃ recs, out = (acc ++ recs)%list ∧ Forall2 well_shaped cols recs.
Proof.
  revert acc σ. induction cols as [|col cols IH]; intros acc σ; cbn [columns_loop].
  - intros [= <- _]. exists []. by rewrite app_nil_r.
  - unfold bind at 1.
    destruct (_generate_description_with_ollama _ _ _ _ _ _ _ _ σ) as [[v|e] σ1];
      [|discriminate].
    unfold bind at 1, lift.
    destruct (_parse_markdown_description v) as [d|e] eqn:Hd; [|discriminate].
    intros (recs & -> & HF)%IH.
    eexists (_ :: recs). split; [by rewrite <- app_assoc|].
    constructor; [|done]. apply parse_returned in Hd as (bp & dq & eu & iss & ->).
    by exists bp, dq, eu, iss.
Qed.

Lemma columns_loop_app table model before after acc σ :
  loop table model (before ++ after) acc σ =
  bind (loop table model before acc) (loop table model after) σ.
Proof.
  revert acc σ. induction before as [|col before IH]; intros acc σ.
  - done.
  - cbn [app columns_loop]. rewrite !bind_assoc.
    apply bind_ext. intros v σ1. rewrite bind_assoc.
    apply bind_ext. intros d σ2. apply IH.

Qed.

(** C7, as the code has it. The result of a table that was processed is
    the dict with one key, the table name, bound to a list with one
    record per column, in the order of the columns; a record has the
    keys column_name and column_desc, and column_desc is bound to a
    list of exactly one structured description. *)
Theorem result_shape path model σ r σ' :
  run path model σ = (Returned r, σ') →
  r ≠ PyDict [] →
  ∃ df recs,
    pd_read_csv path = Returned df
    ∧ r = PyDict [(path_stem path, PyList recs)]
    ∧ Forall2 well_shaped df recs.
Proof.
  unfold generate_descriptions_from_csv.
  destruct (os_path_exists path); simpl; [|by intros [= <- _] ?].
  unfold try_except, process_table, bind at 1, lift.
  destruct (pd_read_csv path) as [df|e]; [|by intros [= <- _] ?].
  unfold bind, ret.
  destruct (columns_loop _ _ _ _ _ _ _ _ σ) as [[out|e] σ1] eqn:Hloop;
    [|by intros [= <- _] ?].
  intros [= <- _] _. apply columns_loop_shape in Hloop as (recs & -> & HF).
  by exists df, recs.
Qed.

(** C8. When the file does not exist, when reading it raises, and when
    anything raises while the table is processed, the driver returns
    the empty dict and raises nothing. *)
Theorem empty_on_failure path model σ :
  os_path_exists path = false
  ∨ (∃ e, pd_read_csv path = Raised e)
  ∨ (∃ e σ1,
       process_table md5_hexdigest repr_list ollama_chat write_fault
         pd_read_csv path_stem path model σ = (Raised e, σ1)) →
  ∃ σ',
    generate_descriptions_from_csv md5_hexdigest repr_list ollama_chat
      write_fault os_path_exists pd_read_csv path_stem path model σ
    = (Returned (PyDict []), σ').
Proof.
  unfold generate_descriptions_from_csv.
  intros [Hne|[[e He]|(e & σ1 & He)]].
  - rewrite Hne. by eexists.
  - destruct (os_path_exists path); simpl; [|by eexists].
    unfold try_except, process_table, bind, lift. rewrite He. by eexists.
  - destruct (os_path_exists path); simpl; [|by eexists].
    unfold try_except. rewrite He. by eexists.
Qed.

(** C3, as the code has it. When the driver reaches a column whose
    cache entry is damaged, the load raises: the model is not called
    for this column, nothing is regenerated, and the driver returns the
    empty dict from the state in which it reached the column. *)
Theorem damaged_entry_empties_result path model σ before col after recs σ1 e :
  os_path_exists path = true →
  pd_read_csv path = Returned (before ++ col :: after)%list →
  loop (path_stem path) model before [] σ = (Returned recs, σ1) →
  files σ1 !! cache_file (key_of (path_stem path) col) = Some (Damaged e) →
  run path model σ = (Returned (PyDict []), σ1).
Proof.
  intros Hex Hread Hbefore Hfile.
  unfold generate_descriptions_from_csv. rewrite Hex. simpl.
  unfold try_except, process_table, bind at 1, lift. rewrite Hread.
  unfold bind at 1. rewrite columns_loop_app. unfold bind at 1.
  rewrite Hbefore. cbn [columns_loop]. unfold bind at 1.
  by rewrite (generate_damaged _ _ _ _ _ _ _ _ _ e Hfile).
Qed.

End Driver.

(** ** The sample run *)

Import Demo.

Abbreviation demo_describe chat disk :=
  (describe_column digest repr_list chat disk table store_info store_samples).
Abbreviation demo_generate chat disk :=
  (_generate_description_with_ollama digest repr_list chat disk table
     store_info store_samples).
Abbreviation demo_run chat disk readable reader :=
  (generate_descriptions_from_csv digest repr_list chat disk readable reader stem).

Lemma store_key_misses_fresh : misses (_get_cache_key digest store_prompt) fresh_cache.
Proof. exists PyNone. split; reflexivity. Qed.

Lemma answer_not_blank : strip answer ≠ EmptyString.
Proof. vm_compute. discriminate. Qed.

(** The model answers, the store works: the example of the script. *)
Example demo_result :
  (demo_run chat_ok disk_ok exists_sales read_sales file_path "llama3" fresh_cache).1
  = Returned (PyDict [(table, PyList
      [ column_record "StoreID"
          (StructuredDescription "Identifies the store of a sale."
             "Must be a known store code." "Revenue per store." "Codes are reused.");
        column_record "TransactionDate"
          (StructuredDescription "Identifies the store of a sale."
             "Must be a known store code." "Revenue per store." "Codes are reused.") ])]).
Proof. vm_compute. reflexivity. Qed.

(** Texts of the extractor's edge cases: the empty text, two sections of
    four, and each spelling of the issues label. *)
Example parse_empty :
  _parse_markdown_description (PyStr EmptyString)
  = Returned (StructuredDescription "N/A" "N/A" "N/A" "N/A").
Proof. vm_compute. reflexivity. Qed.

Example parse_two_sections :
  _parse_markdown_description
    (PyStr ("**Example Usage**:   joins " +:+ nl +:+ nl +:+ "**ISSUES**: stale"))
  = Returned (StructuredDescription "N/A" "N/A" "joins" "stale").
Proof. vm_compute. reflexivity. Qed.

Example parse_long_spelling :
  _parse_markdown_description (PyStr ("- **Known Issues/Limitations**: gaps" +:+ nl))
  = Returned (StructuredDescription "N/A" "N/A" "N/A" "gaps").
Proof. vm_compute. reflexivity. Qed.

(** A cached value that is not a string makes the extractor raise. *)
Example parse_not_a_string :
  _parse_markdown_description (PyInt 5) = Raised TypeError.
Proof. reflexivity. Qed.

(** C1, counterexample. The model answers with blanks: the first run
    stores the empty string, the second run takes it for a miss and calls
    the model again.  Two runs, two calls. *)
Lemma blank_answer_two_calls :
  let run1 := demo_describe chat_blank disk_ok "llama3" fresh_cache in
  let run2 := demo_describe chat_blank disk_ok "llama3" run1.2 in
  files run1.2 !! store_file = Some (Pickle (PyStr EmptyString))
  ∧ chat_log run2.2 = [("llama3", store_prompt); ("llama3", store_prompt)].
Proof. vm_compute. split; reflexivity. Qed.

(** The same with a model that fails: the fallback text is not stored. *)
Example failing_model_two_calls :
  let run1 := demo_describe chat_down disk_ok "llama3" fresh_cache in
  let run2 := demo_describe chat_down disk_ok "llama3" run1.2 in
  files run1.2 !! store_file = None
  ∧ chat_log run2.2 = [("llama3", store_prompt); ("llama3", store_prompt)].
Proof. vm_compute. split; reflexivity. Qed.

Lemma second_run_served_from_cache_witness :
  misses (_get_cache_key digest store_prompt) fresh_cache
  ∧ strip answer ≠ EmptyString
  ∧ ∃ d σ1,
      demo_describe chat_ok disk_ok "llama3" fresh_cache = (Returned d, σ1)
      ∧ files σ1 !! store_file = Some (Pickle (PyStr (strip answer)))
      ∧ demo_describe chat_ok disk_ok "llama3" σ1 = (Returned d, σ1)
      ∧ chat_log σ1 = (chat_log fresh_cache ++ [("llama3", store_prompt)])%list.
Proof.
  split; [exact store_key_misses_fresh|]. split; [exact answer_not_blank|].
  exact (second_run_served_from_cache digest repr_list chat_ok disk_ok table
           store_info store_samples "llama3" fresh_cache answer
           store_key_misses_fresh eq_refl answer_not_blank eq_refl).
Defined.

(** C2. The model answers and the cache file cannot be opened for writing: the run returns the
    fallback text, which reports a failed generation with the cause of
    the store failure, and not the answer of the model. *)
Theorem store_failure_discards_answer :
  chat_ok (chat_log fresh_cache) "llama3" store_prompt = Returned answer
  ∧ disk_locked store_file = Some denied
  ∧ demo_generate chat_ok disk_locked "llama3" fresh_cache
    = (Returned (PyStr (
         "- **Business Purpose**: Could not determine purpose for StoreID." +:+ nl +:+
         "- **Data Quality Rules**: Must conform to data type object." +:+ nl +:+
         "- **Example Usage**: Used for general analysis within the sample_sales_data table." +:+ nl +:+
         "- **Known Issues/Limitations**: LLM description generation failed: [Errno 13] Permission denied")),
       called "llama3" store_prompt fresh_cache)
  ∧ (demo_generate chat_ok disk_locked "llama3" fresh_cache).1 ≠ Returned (PyStr (strip answer)).
Proof.
  split_and!; [reflexivity..| |].
  - rewrite (store_failure_gives_fallback digest repr_list chat_ok disk_locked table
               store_info store_samples "llama3" fresh_cache answer denied
               store_key_misses_fresh eq_refl eq_refl).
    reflexivity.
  - vm_compute. discriminate.
Qed.

(** C3, counterexample. The cache file of StoreID is damaged: the driver
    returns the empty dict and the model was never called, while on a
    cache without the file it returns the records of both columns after
    two calls. *)
Lemma damaged_entry_not_a_miss :
  let damaged :=
    demo_run chat_ok disk_ok exists_sales read_sales file_path "llama3" damaged_cache in
  let missing :=
    demo_run chat_ok disk_ok exists_sales read_sales file_path "llama3" fresh_cache in
  files damaged_cache !! store_file = Some (Damaged unpickling)
  ∧ damaged.1 = Returned (PyDict [])
  ∧ chat_log damaged.2 = []
  ∧ missing.1 ≠ Returned (PyDict [])
  ∧ length (chat_log missing.2) = 2.
Proof.
  split_and!; [vm_compute; reflexivity..| |vm_compute; reflexivity].
  vm_compute. discriminate.
Qed.

Lemma damaged_entry_empties_result_witness :
  files damaged_cache !! store_file = Some (Damaged unpickling)
  ∧ demo_run chat_ok disk_ok exists_sales read_sales file_path "llama3" damaged_cache
    = (Returned (PyDict []), damaged_cache).
Proof.
  split; [vm_compute; reflexivity|].
  apply (damaged_entry_empties_result digest repr_list chat_ok disk_ok
           exists_sales read_sales stem file_path "llama3" damaged_cache
           [] StoreID [TransactionDate] [] damaged_cache unpickling).
  - reflexivity.
  - reflexivity.
  - reflexivity.
  - vm_compute. reflexivity.
Defined.

(** C6, counterexample. One fallback text serves a nullable and a
    non-nullable column, so it does not state the nullability; and a
    column whose name holds an issues header gets an issues field that
    does not record the failure. *)
Lemma fallback_omits_nullability :
  let yes := {| column_name := "TransactionDate"; data_type := "object";
                is_nullable := "YES" |} in
  let no := {| column_name := "TransactionDate"; data_type := "object";
               is_nullable := "NO" |} in
  let odd := {| column_name := "**Issues**: none"; data_type := "object";
                is_nullable := "NO" |} in
  is_nullable yes ≠ is_nullable no
  ∧ fallback table yes refused = fallback table no refused
  ∧ _parse_markdown_description (PyStr (fallback table odd refused))
    = Returned (StructuredDescription
        "Could not determine purpose for **Issues**: none."
        "Must conform to data type object."
        "Used for general analysis within the sample_sales_data table."
        "none.").
Proof. split_and!; [discriminate|reflexivity|vm_compute; reflexivity]. Qed.

Lemma fallback_records_failure_witness :
  (∀ ci', column_name ci' = column_name store_info →
          data_type ci' = data_type store_info →
          fallback table ci' refused = fallback table store_info refused)
  ∧ contains ("Must conform to data type " +:+ data_type store_info +:+ ".")
      (fallback table store_info refused)
  ∧ ∃ bp dq eu iss,
      _parse_markdown_description (PyStr (fallback table store_info refused))
        = Returned (StructuredDescription bp dq eu iss)
      ∧ iss = strip (until_boundary
                ("LLM description generation failed: " +:+ exn_text refused))
      ∧ (has_char LF (exn_text refused) = false →
         iss = strip ("LLM description generation failed: " +:+ exn_text refused)).
Proof.
  apply (fallback_records_failure table store_info refused); vm_compute; reflexivity.
Defined.

(** C7, counterexample. The records of the sample run have the keys
    column_name and column_desc: there is no key descriptions. *)
Lemma record_key_is_column_desc :
  ∃ d1 d2,
    (demo_run chat_ok disk_ok exists_sales read_sales file_path "llama3" fresh_cache).1
    = Returned (PyDict [(table, PyList
        [ PyDict [("column_name", PyStr "StoreID"); ("column_desc", PyList [d1])];
          PyDict [("column_name", PyStr "TransactionDate"); ("column_desc", PyList [d2])] ])])
    ∧ dict_get [("column_name", PyStr "StoreID"); ("column_desc", PyList [d1])]
        "descriptions" = None
    ∧ dict_keys [("column_name", PyStr "StoreID"); ("column_desc", PyList [d1])]
      = ["column_name"; "column_desc"].
Proof. eexists _, _. vm_compute. split_and!; reflexivity. Qed.

Lemma result_shape_witness :
  ∃ df recs,
    read_sales file_path = Returned df
    ∧ (demo_run chat_ok disk_ok exists_sales read_sales file_path "llama3" fresh_cache).1
      = Returned (PyDict [(stem file_path, PyList recs)])
    ∧ Forall2 well_shaped df recs.
Proof.
  pose proof (surjective_pairing
    (demo_run chat_ok disk_ok exists_sales read_sales file_path "llama3" fresh_cache)) as Hrun.
  rewrite demo_result in Hrun at 1.
  destruct (result_shape digest repr_list chat_ok disk_ok exists_sales read_sales
              stem file_path "llama3" fresh_cache _ _ Hrun) as (df & recs & Hd & Heq & HF);
    [discriminate|].
  exists df, recs. split; [exact Hd|]. split; [|exact HF].
  rewrite demo_result. f_equal. exact Heq.
Defined.

Lemma empty_on_failure_witness :
  (∃ σ', demo_run chat_ok disk_ok exists_sales read_sales "missing.csv" "llama3" fresh_cache
         = (Returned (PyDict []), σ'))
  ∧ (∃ σ', demo_run chat_ok disk_ok (λ _, true) read_garbled file_path "llama3" fresh_cache
           = (Returned (PyDict []), σ'))
  ∧ (∃ σ', demo_run chat_ok disk_ok exists_sales read_sales file_path "llama3" damaged_cache
           = (Returned (PyDict []), σ')).
Proof.
  split_and!.
  - apply (empty_on_failure digest repr_list chat_ok disk_ok exists_sales
             read_sales stem "missing.csv" "llama3" fresh_cache).
    left. reflexivity.
  - apply (empty_on_failure digest repr_list chat_ok disk_ok (λ _, true)
             read_garbled stem file_path "llama3" fresh_cache).
    right. left. exists parser_error. reflexivity.
  - apply (empty_on_failure digest repr_list chat_ok disk_ok exists_sales
             read_sales stem file_path "llama3" damaged_cache).
    right. right. exists unpickling, damaged_cache.
    unfold process_table, bind at 1, lift.
    change (read_sales file_path) with (Returned sales).
    unfold sales. cbn [columns_loop]. unfold bind at 1. unfold bind at 1.
    rewrite (generate_damaged digest repr_list chat_ok disk_ok (stem file_path)
               (column_info_metadata StoreID) (sample_values_of StoreID)
               "llama3" damaged_cache unpickling).
    + reflexivity.
    + vm_compute. reflexivity.
Defined.

Lemma cache_ignores_model_witness :
  ∃ σ1,
    demo_generate chat_ok disk_ok "llama3" fresh_cache = (Returned (PyStr (strip answer)), σ1)
    ∧ demo_generate chat_ok disk_ok "mistral" σ1 = (Returned (PyStr (strip answer)), σ1)
    ∧ chat_log σ1 = (chat_log fresh_cache ++ [("llama3", store_prompt)])%list.
Proof.
  apply (cache_ignores_model digest repr_list chat_ok disk_ok table store_info
           store_samples "llama3" "mistral" fresh_cache answer).
  - exact store_key_misses_fresh.
  - reflexivity.
  - exact answer_not_blank.
  - reflexivity.
Defined.

Lemma falsy_entry_is_a_miss_witness :
  files empty_entry_cache !! store_file = Some (Pickle (PyStr EmptyString))
  ∧ ∃ r σ' σ'',
      demo_generate chat_ok disk_ok "llama3" empty_entry_cache = (r, σ')
      ∧ chat_log σ' = (chat_log empty_entry_cache ++ [("llama3", store_prompt)])%list
      ∧ demo_generate chat_ok disk_ok "llama3" (without store_file empty_entry_cache)
        = (r, σ'').
Proof.
  split; [vm_compute; reflexivity|].
  apply (falsy_entry_is_a_miss digest repr_list chat_ok disk_ok table store_info
           store_samples "llama3" empty_entry_cache (PyStr EmptyString)).
  - vm_compute. reflexivity.
  - reflexivity.
Defined.

(** ** The cache by itself *)

Lemma append_inj_l a x y : a +:+ x = a +:+ y → x = y.
Proof.
  induction a as [|c a IH]; [done|].
  change (String c (a +:+ x) = String c (a +:+ y) → x = y).
  intros [= Heq]. by apply IH.
Qed.

Lemma append_inj_r b x y : x +:+ b = y +:+ b → x = y.
Proof.
  revert y. induction x as [|c x IH]; intros [|d y] Heq; [done| | |].
  - apply (f_equal String.length) in Heq.
    rewrite !length_append_str in Heq. simpl in Heq. lia.
  - apply (f_equal String.length) in Heq.
    rewrite !length_append_str in Heq. simpl in Heq. lia.
  - change (String c (x +:+ b) = String d (y +:+ b)) in Heq.
    injection Heq as -> Heq. f_equal. by apply IH.
Qed.

(** Two keys share a cache file only when they are the same key. *)
Lemma cache_file_inj k k' : cache_file k = cache_file k' → k = k'.
Proof.
  unfold cache_file. intros Heq.
  apply append_inj_l, append_inj_l in Heq. by apply append_inj_r in Heq.
Qed.

Section CacheAlone.

Variable write_fault : string → option exn.

(** X1. A response saved without a write error is what the next load of
    the same key returns, whatever the file held before; the load changes
    nothing. *)
Theorem save_then_load cache_key response σ :
  write_fault (cache_file cache_key) = None →
  ∃ σ1,
    _save_to_cache write_fault cache_key response σ = (Returned (), σ1)
    ∧ _load_from_cache cache_key σ1 = (Returned response, σ1).
Proof.
  intros Hw. unfold _save_to_cache, _load_from_cache. rewrite Hw.
  eexists. split; [reflexivity|]. simpl. by rewrite lookup_insert_eq.
Qed.

(** X2. For keys that are digests, a save never changes what a load of
    another key returns, and a save whose open raises changes no file at
    all. *)
Theorem save_keeps_other_keys cache_key other response σ :
  hexdigest cache_key → hexdigest other →
  other ≠ cache_key →
  (_load_from_cache other (_save_to_cache write_fault cache_key response σ).2).1
  = (_load_from_cache other σ).1
  ∧ (∀ e, write_fault (cache_file cache_key) = Some e →
          _save_to_cache write_fault cache_key response σ = (Raised e, σ)).
Proof.
  intros _ _ Hne. split.
  - unfold _save_to_cache, _load_from_cache.
    destruct (write_fault _); [done|]. simpl.
    rewrite lookup_insert_ne.
    + by destruct (files σ !! cache_file other) as [[v|e]|].
    + intros Heq%cache_file_inj. by apply Hne.
  - intros e He. unfold _save_to_cache. by rewrite He.
Qed.

(** X3. Of two saves under one key the later wins: the store is left as
    if only the second save had been made. *)
Theorem save_overwrites cache_key first second σ :
  write_fault (cache_file cache_key) = None →
  (_save_to_cache write_fault cache_key second
     (_save_to_cache write_fault cache_key first σ).2).2
  = (_save_to_cache write_fault cache_key second σ).2.
Proof.
  intros Hw. unfold _save_to_cache. rewrite Hw. simpl.
  by rewrite insert_insert_eq.
Qed.

End CacheAlone.

(** ** What one description touches *)

Section OneColumnFrame.

Variable md5_hexdigest : string → string.
Context {Sample : Type}.
Variable repr_list : list Sample → string.
Variable ollama_chat : list (string * string) → string → string → outcome string.
Variable write_fault : string → option exn.
Variables (table_name : string) (ci : column_info) (sample_values : list Sample).

Abbreviation the_prompt := (build_prompt repr_list table_name ci sample_values).
Abbreviation the_file := (cache_file (_get_cache_key md5_hexdigest the_prompt)).

Lemma generate_effect model σ r σ' :
  _generate_description_with_ollama md5_hexdigest repr_list ollama_chat
    write_fault table_name ci sample_values model σ = (r, σ') →
  (chat_log σ' = chat_log σ
   ∨ chat_log σ' = (chat_log σ ++ [(model, the_prompt)])%list)
  ∧ (∀ path, path ≠ the_file → files σ' !! path = files σ !! path)
  ∧ (files σ' = files σ
     ∨ ∃ content,
         ollama_chat (chat_log σ) model the_prompt = Returned content
         ∧ write_fault the_file = None
         ∧ files σ' = <[the_file := Pickle (PyStr (strip content))]> (files σ)).
Proof.
  destruct (files σ !! the_file) as [[v|e]|] eqn:Hf.
  - destruct (truthy v) eqn:Hv.
    + rewrite (generate_hit _ _ _ _ _ _ _ _ _ v Hf Hv).
      intros [= <- <-]. split_and!; [by left|done|by left].
    + rewrite generate_miss by by eapply misses_falsy.
      destruct (ollama_chat _ _ _) as [content|e] eqn:Hc;
        [destruct (write_fault _) eqn:Hw|]; intros [= <- <-]; simpl;
        split_and!; try (by right); try (by left); try done.
      * intros path Hp. by rewrite lookup_insert_ne.
      * right. by exists content.
  - rewrite (generate_damaged _ _ _ _ _ _ _ _ _ e Hf).
    intros [= <- <-]. split_and!; [by left|done|by left].
  - rewrite generate_miss by by apply misses_absent.
    destruct (ollama_chat _ _ _) as [content|e] eqn:Hc;
      [destruct (write_fault _) eqn:Hw|]; intros [= <- <-]; simpl;
      split_and!; try (by right); try (by left); try done.
    + intros path Hp. by rewrite lookup_insert_ne.
    + right. by exists content.
Qed.

(** X4. One description makes at most one call to the model, with the
    model and the prompt of the column.  It changes the cache file of no
    other digest.  Without a call, and when the model fails, it changes
    no file at all; when the model answers and the store succeeds, the
    file of the prompt holds the trimmed answer. *)
Theorem generate_frame model σ r σ' :
  _generate_description_with_ollama md5_hexdigest repr_list ollama_chat
    write_fault table_name ci sample_values model σ = (r, σ') →
  (chat_log σ' = chat_log σ
   ∨ chat_log σ' = (chat_log σ ++ [(model, the_prompt)])%list)
  ∧ (∀ k, hexdigest k → k ≠ _get_cache_key md5_hexdigest the_prompt →
          files σ' !! cache_file k = files σ !! cache_file k)
  ∧ (chat_log σ' = chat_log σ → files σ' = files σ)
  ∧ (∀ e, ollama_chat (chat_log σ) model the_prompt = Raised e →
          files σ' = files σ)
  ∧ (∀ content,
       chat_log σ' ≠ chat_log σ →
       ollama_chat (chat_log σ) model the_prompt = Returned content →
       write_fault the_file = None →
       files σ' = <[the_file := Pickle (PyStr (strip content))]> (files σ)).
Proof.
  intros Hrun.
  destruct (generate_effect model σ r σ' Hrun) as (Hlog & Hother & Hfiles).
  split_and!.
  - exact Hlog.
  - intros k _ Hk. apply Hother. intros Heq%cache_file_inj. by apply Hk.
  - intros Hsame. revert Hrun.
    destruct (files σ !! the_file) as [[v|e]|] eqn:Hf.
    + destruct (truthy v) eqn:Hv.
      * rewrite (generate_hit _ _ _ _ _ _ _ _ _ v Hf Hv). by intros [= _ <-].
      * rewrite generate_miss by by eapply misses_falsy.
        destruct (ollama_chat _ _ _); [destruct (write_fault _)|];
          intros [= _ <-]; simpl in Hsame;
          by apply (f_equal length) in Hsame; rewrite length_app in Hsame;
             simpl in Hsame; lia.
    + rewrite (generate_damaged _ _ _ _ _ _ _ _ _ e Hf). by intros [= _ <-].
    + rewrite generate_miss by by apply misses_absent.
      destruct (ollama_chat _ _ _); [destruct (write_fault _)|];
        intros [= _ <-]; simpl in Hsame;
        by apply (f_equal length) in Hsame; rewrite length_app in Hsame;
           simpl in Hsame; lia.
  - intros e He. destruct Hfiles as [Hsame|(c & Hc & _)]; [done|congruence].
  - intros content Hcall Hc Hw. revert Hrun.
    destruct (files σ !! the_file) as [[v|e]|] eqn:Hf.
    + destruct (truthy v) eqn:Hv.
      * rewrite (generate_hit _ _ _ _ _ _ _ _ _ v Hf Hv). intros [= _ <-]. done.
      * rewrite generate_miss by by eapply misses_falsy.
        rewrite Hc, Hw. by intros [= _ <-].
    + rewrite (generate_damaged _ _ _ _ _ _ _ _ _ e Hf). intros [= _ <-]. done.
    + rewrite generate_miss by by apply misses_absent.
      rewrite Hc, Hw. by intros [= _ <-].
Qed.

(** X5. One description raises an error exactly when the cache file of
    its prompt is damaged: it raises the error of the load, and the state
    after is the state before, so that nothing was called or written.  A
    failure of the model or of the store never makes it raise. *)
Theorem generate_raises_iff_damaged model σ e σ' :
  _generate_description_with_ollama md5_hexdigest repr_list ollama_chat
    write_fault table_name ci sample_values model σ = (Raised e, σ')
  ↔ files σ !! the_file = Some (Damaged e) ∧ σ' = σ.
Proof.
  split.
  - intros Hrun. destruct (files σ !! the_file) as [[v|e']|] eqn:Hf.
    + destruct (truthy v) eqn:Hv.
      * by rewrite (generate_hit _ _ _ _ _ _ _ _ _ v Hf Hv) in Hrun.
      * rewrite generate_miss in Hrun by by eapply misses_falsy.
        destruct (ollama_chat _ _ _); [destruct (write_fault _)|]; done.
    + rewrite (generate_damaged _ _ _ _ _ _ _ _ _ e' Hf) in Hrun.
      by injection Hrun as -> ->.
    + rewrite generate_miss in Hrun by by apply misses_absent.
      destruct (ollama_chat _ _ _); [destruct (write_fault _)|]; done.
  - intros [Hf ->]. by apply generate_damaged.
Qed.

(** X6. What one description returns is the cached value on a hit and a
    string otherwise: a value that is not a string can only come out of
    the cache, from a file that holds it. *)
Theorem generate_returns_string_or_cached model σ v σ' :
  _generate_description_with_ollama md5_hexdigest repr_list ollama_chat
    write_fault table_name ci sample_values model σ = (Returned v, σ') →
  (∃ s, v = PyStr s)
  ∨ (files σ !! the_file = Some (Pickle v) ∧ truthy v = true ∧ σ' = σ).
Proof.
  destruct (files σ !! the_file) as [[w|e]|] eqn:Hf.
  - destruct (truthy w) eqn:Hw.
    + rewrite (generate_hit _ _ _ _ _ _ _ _ _ w Hf Hw).
      intros [= <- <-]. by right.
    + rewrite generate_miss by by eapply misses_falsy.
      destruct (ollama_chat _ _ _); [destruct (write_fault _)|];
        intros [= <- <-]; left; by eexists.
  - by rewrite (generate_damaged _ _ _ _ _ _ _ _ _ e Hf).
  - rewrite generate_miss by by apply misses_absent.
    destruct (ollama_chat _ _ _); [destruct (write_fault _)|];
      intros [= <- <-]; left; by eexists.
Qed.

End OneColumnFrame.

(** ** What a table touches *)

Lemma parse_string text :
  _parse_markdown_description (PyStr text) = Returned (structured text).
Proof. apply parse_markdown_eq. Qed.

Lemma parse_not_string v :
  (∀ s, v ≠ PyStr s) → _parse_markdown_description v = Raised TypeError.
Proof. intros Hv. destruct v; try done. by destruct (Hv s). Qed.

Section DriverFrame.

Variable md5_hexdigest : string → string.
Context {Sample : Type} `{EqDecision Sample}.
Variable repr_list : list Sample → string.
Variable ollama_chat : list (string * string) → string → string → outcome string.
Variable write_fault : string → option exn.
Variable os_path_exists : string → bool.
Variable pd_read_csv : string → outcome (list (@Series Sample)).
Variable path_stem : string → string.

Abbreviation file_of table col :=
  (cache_file (_get_cache_key md5_hexdigest
     (build_prompt repr_list table (column_info_metadata col) (sample_values_of col)))).

Lemma loop_total table model cols acc σ :
  (∃ out σ',
     columns_loop md5_hexdigest repr_list ollama_chat write_fault
       table model cols acc σ = (Returned out, σ')
     ∧ length out = (length acc + length cols)%nat)
  ∨ (∃ e σ',
       columns_loop md5_hexdigest repr_list ollama_chat write_fault
         table model cols acc σ = (Raised e, σ')).
Proof.
  destruct (columns_loop _ _ _ _ _ _ cols acc σ) as [[out|e] σ'] eqn:Hloop.
  - left. exists out, σ'. split; [done|].
    apply columns_loop_shape in Hloop as (recs & -> & HF).
    rewrite length_app. by rewrite (Forall2_length _ _ _ HF).
  - right. by exists e, σ'.
Qed.

(** X7. The driver lets no error out: whatever errors the reader, the
    model, the store and the cache raise, for every path, model and state
    it returns either the empty dict or a dict with the table name as
    only key, bound to as many records as the table has columns. *)
Theorem driver_total path model σ :
  ∃ r σ',
    generate_descriptions_from_csv md5_hexdigest repr_list ollama_chat
      write_fault os_path_exists pd_read_csv path_stem path model σ
    = (Returned r, σ')
    ∧ (r = PyDict []
       ∨ ∃ df recs,
           pd_read_csv path = Returned df
           ∧ r = PyDict [(path_stem path, PyList recs)]
           ∧ length recs = length df).
Proof.
  unfold generate_descriptions_from_csv.
  destruct (os_path_exists path); simpl; [|eexists _, _; split; [done|by left]].
  unfold try_except, process_table, bind at 1, lift.
  destruct (pd_read_csv path) as [df|e]; [|eexists _, _; split; [done|by left]].
  unfold bind, ret.
  destruct (loop_total (path_stem path) model df [] σ)
    as [(out & σ' & -> & Hlen)|(e & σ' & ->)].
  - eexists _, _. split; [done|]. right. by exists df, out.
  - eexists _, _. split; [done|]. by left.
Qed.

Lemma loop_calls table model cols acc σ :
  ∃ calls,
    chat_log (columns_loop md5_hexdigest repr_list ollama_chat write_fault
                table model cols acc σ).2 = (chat_log σ ++ calls)%list
    ∧ (length calls ≤ length cols)%nat
    ∧ Forall (λ c, c.1 = model) calls.
Proof.
  revert acc σ. induction cols as [|col cols IH]; intros acc σ; cbn [columns_loop].
  - exists []. by rewrite app_nil_r.
  - unfold bind at 1.
    destruct (_generate_description_with_ollama _ _ _ _ _ _ _ _ σ)
      as [[v|e] σa] eqn:Hg;
      apply generate_effect in Hg as (Hlog & _).
    + unfold bind at 1, lift.
      destruct (_parse_markdown_description v) as [d|e].
      * destruct (IH (acc ++ [PyDict [("column_name", PyStr (series_name col));
                                      ("column_desc", PyList [d])]])%list σa)
          as (calls & -> & Hlen & Hall).
        destruct Hlog as [->| ->].
        -- exists calls. split_and!; [done|simpl; lia|done].
        -- exists ((model, build_prompt repr_list table (column_info_metadata col)
                              (sample_values_of col)) :: calls).
           split_and!; [by rewrite <- app_assoc|simpl; lia|by constructor].
      * simpl. destruct Hlog as [->| ->].
        -- exists []. split_and!; [by rewrite app_nil_r|simpl; lia|done].
        -- eexists [_]. split_and!; [done|simpl; lia|by repeat constructor].
    + simpl. destruct Hlog as [->| ->].
      * exists []. split_and!; [by rewrite app_nil_r|simpl; lia|done].
      * eexists [_]. split_and!; [done|simpl; lia|by repeat constructor].
Qed.

(** X8. The driver calls the model at most once per column of the table,
    each time with the model it was given, and not at all when the file
    is missing or cannot be read; it never removes a call from the log. *)
Theorem driver_calls_bounded path model σ :
  ∃ calls,
    chat_log (generate_descriptions_from_csv md5_hexdigest repr_list ollama_chat
                write_fault os_path_exists pd_read_csv path_stem path model σ).2
    = (chat_log σ ++ calls)%list
    ∧ Forall (λ c, c.1 = model) calls
    ∧ (length calls ≤
       if os_path_exists path then
         match pd_read_csv path with
         | Returned df => length df
         | Raised _ => 0
         end
       else 0)%nat.
Proof.
  unfold generate_descriptions_from_csv.
  destruct (os_path_exists path); simpl;
    [|exists []; by rewrite app_nil_r].
  unfold try_except, process_table, bind at 1, lift.
  destruct (pd_read_csv path) as [df|e]; [|exists []; by rewrite app_nil_r].
  unfold bind, ret.
  destruct (loop_calls (path_stem path) model df [] σ) as (calls & Hlog & Hlen & Hall).
  exists calls.
  destruct (columns_loop _ _ _ _ _ _ df [] σ) as [[out|e] σ']; simpl in *; done.
Qed.

(** X9. A table without columns yields the table name bound to the empty
    list; the model is not called and the state is left as it was. *)
Theorem empty_table path model σ :
  os_path_exists path = true →
  pd_read_csv path = Returned [] →
  generate_descriptions_from_csv md5_hexdigest repr_list ollama_chat
    write_fault os_path_exists pd_read_csv path_stem path model σ
  = (Returned (PyDict [(path_stem path, PyList [])]), σ).
Proof.
  intros Hex Hread. unfold generate_descriptions_from_csv. rewrite Hex. simpl.
  unfold try_except, process_table, bind, lift. by rewrite Hread.
Qed.

(** X10. When the driver reaches a column whose cache file holds a true
    value that is not a string, the value is taken for the description,
    the extractor raises a TypeError, and the driver returns the empty
    dict from the state in which it reached the column: the model is not
    called for it and the records of the columns before are dropped. *)
Theorem cached_non_string_empties_result path model σ before col after recs σ1 v :
  os_path_exists path = true →
  pd_read_csv path = Returned (before ++ col :: after)%list →
  columns_loop md5_hexdigest repr_list ollama_chat write_fault
    (path_stem path) model before [] σ = (Returned recs, σ1) →
  files σ1 !! file_of (path_stem path) col = Some (Pickle v) →
  truthy v = true →
  (∀ s, v ≠ PyStr s) →
  generate_descriptions_from_csv md5_hexdigest repr_list ollama_chat
    write_fault os_path_exists pd_read_csv path_stem path model σ
  = (Returned (PyDict []), σ1).
Proof.
  intros Hex Hread Hbefore Hfile Hv Hns.
  unfold generate_descriptions_from_csv. rewrite Hex. simpl.
  unfold try_except, process_table, bind at 1, lift. rewrite Hread.
  unfold bind at 1. rewrite columns_loop_app. unfold bind at 1.
  rewrite Hbefore. cbn [columns_loop]. unfold bind at 1.
  rewrite (generate_hit _ _ _ _ _ _ _ _ _ v Hfile Hv).
  unfold bind at 1, lift. by rewrite (parse_not_string v Hns).
Qed.

End DriverFrame.

(** ** Tables and warm caches *)

Lemma truthy_string_nonempty s : truthy (PyStr s) = true → s ≠ EmptyString.
Proof. simpl. intros Hs ->. by rewrite bool_decide_eq_true_2 in Hs. Qed.

Section DriverWarm.

Variable md5_hexdigest : string → string.
Context {Sample : Type} `{EqDecision Sample}.
Variable repr_list : list Sample → string.
Variable ollama_chat : list (string * string) → string → string → outcome string.
Variable write_fault : string → option exn.
Variable os_path_exists : string → bool.
Variable pd_read_csv : string → outcome (list (@Series Sample)).
Variable path_stem : string → string.

Abbreviation warm_file table col :=
  (cache_file (_get_cache_key md5_hexdigest
     (build_prompt repr_list table (column_info_metadata col) (sample_values_of col)))).
Abbreviation warm_loop :=
  (columns_loop md5_hexdigest repr_list ollama_chat write_fault).
Abbreviation warm_run :=
  (generate_descriptions_from_csv md5_hexdigest repr_list ollama_chat
     write_fault os_path_exists pd_read_csv path_stem).

Lemma loop_warm table model cols texts acc σ :
  Forall2 (λ col text, hot σ (warm_file table col) text) cols texts →
  warm_loop table model cols acc σ
  = (Returned (acc ++ zip_with record_of cols texts)%list, σ).
Proof.
  intros HF. revert acc. induction HF as [|col text cols texts [Hf Hne] HF IH];
    intros acc; cbn [columns_loop zip_with].
  - by rewrite app_nil_r.
  - unfold bind at 1.
    rewrite (generate_hit _ _ _ _ _ _ _ _ _ (PyStr text) Hf (truthy_nonempty text Hne)).
    unfold bind at 1, lift. rewrite parse_string.
    rewrite IH. by rewrite <- app_assoc.
Qed.

Lemma run_of_loop path model σ df out σ' :
  os_path_exists path = true →
  pd_read_csv path = Returned df →
  warm_loop (path_stem path) model df [] σ = (Returned out, σ') →
  warm_run path model σ = (Returned (PyDict [(path_stem path, PyList out)]), σ').
Proof.
  intros Hex Hread Hloop. unfold generate_descriptions_from_csv. rewrite Hex. simpl.
  unfold try_except, process_table, bind at 1, lift. rewrite Hread.
  unfold bind. by rewrite Hloop.
Qed.

(** X11. When the cache holds a text that is not empty for the prompt of
    every column, the driver calls nothing and changes nothing: it
    returns, for each column in order, the record of the structured
    description of the cached text. *)
Theorem warm_table_no_calls path model σ df texts :
  os_path_exists path = true →
  pd_read_csv path = Returned df →
  Forall2 (λ col text, hot σ (warm_file (path_stem path) col) text) df texts →
  warm_run path model σ
  = (Returned (PyDict [(path_stem path, PyList (zip_with record_of df texts))]), σ).
Proof.
  intros Hex Hread Hhot. eapply run_of_loop; [done..|].
  by rewrite (loop_warm _ _ _ texts).
Qed.

Lemma generate_warms table col model σ :
  sound σ →
  (∀ h m p, ∃ c, ollama_chat h m p = Returned c ∧ strip c ≠ EmptyString) →
  (∀ p, write_fault p = None) →
  ∃ text σa,
    _generate_description_with_ollama md5_hexdigest repr_list ollama_chat
      write_fault table (column_info_metadata col) (sample_values_of col) model σ
    = (Returned (PyStr text), σa)
    ∧ hot σa (warm_file table col) text
    ∧ sound σa
    ∧ (∀ path u, hot σ path u → hot σa path u).
Proof.
  intros Hsound Hchat Hwrite.
  assert (Hmiss : misses (_get_cache_key md5_hexdigest
            (build_prompt repr_list table (column_info_metadata col)
               (sample_values_of col))) σ →
          (∀ u, ¬ hot σ (warm_file table col) u) →
          ∃ text σa,
            _generate_description_with_ollama md5_hexdigest repr_list ollama_chat
              write_fault table (column_info_metadata col) (sample_values_of col)
              model σ = (Returned (PyStr text), σa)
            ∧ hot σa (warm_file table col) text ∧ sound σa
            ∧ (∀ path u, hot σ path u → hot σa path u)).
  { intros Hm Hcold. rewrite generate_miss by done.
    destruct (Hchat (chat_log σ) model
                (build_prompt repr_list table (column_info_metadata col)
                   (sample_values_of col))) as (c & -> & Hc).
    rewrite Hwrite. eexists _, _. split; [done|]. split_and!.
    - split; [|done]. simpl. apply lookup_insert_eq.
    - intros path. simpl. destruct (decide (warm_file table col = path)) as [<-|Hne].
      + rewrite lookup_insert_eq. by eexists.
      + rewrite lookup_insert_ne by done. apply Hsound.
    - intros path u [Hf Hu]. split; [|done]. simpl.
      rewrite lookup_insert_ne; [done|]. intros <-. by apply (Hcold u). }
  pose proof (Hsound (warm_file table col)) as Hs.
  destruct (files σ !! warm_file table col) as [[v|e]|] eqn:Hf; [|done|].
  - destruct (truthy v) eqn:Hv.
    + destruct (Hs eq_refl) as [s ->].
      exists s, σ. split; [by apply generate_hit|]. split_and!; [|done..].
      split; [done|]. by apply truthy_string_nonempty.
    + apply Hmiss; [by eapply misses_falsy|].
      intros u [Hu Hne]. simplify_eq. by rewrite (truthy_nonempty u Hne) in Hv.
  - apply Hmiss; [by apply misses_absent|]. intros u [Hu _]. congruence.
Qed.

Lemma loop_warms table model cols acc σ :
  sound σ →
  (∀ h m p, ∃ c, ollama_chat h m p = Returned c ∧ strip c ≠ EmptyString) →
  (∀ p, write_fault p = None) →
  ∃ texts σ1,
    warm_loop table model cols acc σ
    = (Returned (acc ++ zip_with record_of cols texts)%list, σ1)
    ∧ Forall2 (λ col text, hot σ1 (warm_file table col) text) cols texts
    ∧ (∀ path u, hot σ path u → hot σ1 path u).
Proof.
  intros Hsound Hchat Hwrite. revert acc σ Hsound.
  induction cols as [|col cols IH]; intros acc σ Hsound; cbn [columns_loop].
  - exists [], σ. by rewrite app_nil_r.
  - destruct (generate_warms table col model σ Hsound Hchat Hwrite)
      as (text & σa & Hg & Hhot & Hsa & Hkeep).
    unfold bind at 1. rewrite Hg. unfold bind at 1, lift. rewrite parse_string.
    destruct (IH (acc ++ [PyDict [("column_name", PyStr (series_name col));
                                  ("column_desc", PyList [structured text])]])%list
                σa Hsa) as (texts & σ1 & Hloop & HF & Hkeep1).
    exists (text :: texts), σ1. split_and!.
    + rewrite Hloop. cbn [zip_with]. by rewrite <- app_assoc.
    + constructor; [by apply Hkeep1|done].
    + intros path u Hu. by apply Hkeep1, Hkeep.
Qed.

(** X12. On a cache without damaged files and without true values that
    are not strings, with a model that always answers a text that is not
    blank and a store that never fails, a second run of the driver on the
    same file returns the result of the first run, calls nothing and
    changes nothing. *)
Theorem second_table_run_from_cache path model σ df :
  os_path_exists path = true →
  pd_read_csv path = Returned df →
  sound σ →
  (∀ h m p, ∃ c, ollama_chat h m p = Returned c ∧ strip c ≠ EmptyString) →
  (∀ p, write_fault p = None) →
  ∃ texts σ1,
    warm_run path model σ
    = (Returned (PyDict [(path_stem path, PyList (zip_with record_of df texts))]), σ1)
    ∧ warm_run path model σ1
      = (Returned (PyDict [(path_stem path, PyList (zip_with record_of df texts))]), σ1)
    ∧ length texts = length df.
Proof.
  intros Hex Hread Hsound Hchat Hwrite.
  destruct (loop_warms (path_stem path) model df [] σ Hsound Hchat Hwrite)
    as (texts & σ1 & Hloop & HF & _).
  exists texts, σ1. split_and!.
  - by eapply run_of_loop.
  - eapply run_of_loop; [done..|]. by rewrite (loop_warm _ _ _ texts).
  - symmetry. by eapply Forall2_length.
Qed.

End DriverWarm.

(** ** More on the extractor *)

Lemma until_after s : until_boundary s +:+ after_boundary s = s.
Proof.
  induction s as [|c s IH]; cbn [until_boundary after_boundary].
  - by destruct (at_boundary EmptyString).
  - destruct (at_boundary (String c s)); [done|].
    change (String c (until_boundary s +:+ after_boundary s) = String c s).
    by rewrite IH.
Qed.

(** The capture does not run past a position where the lookahead holds. *)
Lemma until_boundary_no_stop s a c b :
  until_boundary s = a +:+ String c b →
  at_boundary (String c b +:+ after_boundary s) = false.
Proof.
  revert s. induction a as [|y a IH]; intros [|x s]; cbn [until_boundary after_boundary].
  - by destruct (at_boundary EmptyString).
  - destruct (at_boundary (String x s)) eqn:Hb; [done|].
    change (EmptyString +:+ String c b) with (String c b).
    intros [= -> <-].
    change (String c (until_boundary s) +:+ after_boundary s)
      with (String c (until_boundary s +:+ after_boundary s)).
    by rewrite until_after.
  - by destruct (at_boundary EmptyString).
  - destruct (at_boundary (String x s)) eqn:Hb; [done|].
    change (String y a +:+ String c b) with (String y (a +:+ String c b)).
    intros [= -> Heq]. by apply IH.
Qed.

Lemma lstrip_suffix s : ∃ pre, s = pre +:+ lstrip s.
Proof.
  induction s as [|c s [pre IH]]; [by exists EmptyString|]. cbn [lstrip].
  destruct (isspace c); [|by exists EmptyString].
  exists (String c pre). change (String c s = String c (pre +:+ lstrip s)).
  by rewrite <- IH.
Qed.

Lemma rstrip_prefix s : ∃ post, s = rstrip s +:+ post.
Proof.
  induction s as [|c s [post IH]]; [by exists EmptyString|]. cbn [rstrip].
  destruct (rstrip s) as [|x r] eqn:Hr.
  - destruct (isspace c).
    + by exists (String c s).
    + exists s. done.
  - exists post. change (String c s = String c (String x r +:+ post)).
    by rewrite <- IH.
Qed.

Lemma contains_strip sub s : contains sub (strip s) → contains sub s.
Proof.
  unfold strip. intros (a & b & Heq).
  destruct (lstrip_suffix s) as [pre Hpre].
  destruct (rstrip_prefix (lstrip s)) as [post Hpost].
  exists (pre +:+ a), (b +:+ post).
  rewrite Hpre at 1. rewrite Hpost at 1. rewrite Heq.
  by rewrite !append_assoc_str.
Qed.

Lemma capture_has_no_break s d :
  d = "-"%char ∨ d = LF →
  ¬ contains (String LF (String d EmptyString)) (until_boundary s).
Proof.
  intros Hd (a & b & Heq).
  change (a +:+ String LF (String d EmptyString) +:+ b)
    with (a +:+ String LF (String d b)) in Heq.
  apply until_boundary_no_stop in Heq.
  change (String LF (String d b) +:+ after_boundary s)
    with (String LF (String d (b +:+ after_boundary s))) in Heq.
  unfold at_boundary in Heq.
  rewrite bool_decide_eq_true_2 in Heq by done.
  destruct Hd as [-> | ->]; by vm_compute in Heq.
Qed.

Lemma sentinel_has_no_break d :
  ¬ contains (String LF (String d EmptyString)) "N/A".
Proof.
  intros (a & b & Heq).
  destruct a as [|? [|? [|? [|? ?]]]]; by vm_compute in Heq.
Qed.

Lemma find_section_capture ls s g :
  find_section ls s = Some g → ∃ u, g = until_boundary u.
Proof.
  induction s as [|c s IH]; cbn [find_section];
    destruct (section_here ls _) as [g'|] eqn:Hg; try done.
  - intros [= <-]. apply section_here_inv in Hg as (l & _ & ->). by eexists.
  - intros [= <-]. apply section_here_inv in Hg as (l & _ & ->). by eexists.
Qed.

Lemma field_of_no_break ls text d :
  d = "-"%char ∨ d = LF →
  ¬ contains (String LF (String d EmptyString)) (field_of ls text).
Proof.
  intros Hd. unfold field_of.
  destruct (find_section ls text) as [g|] eqn:Hg; [|apply sentinel_has_no_break].
  apply find_section_capture in Hg as [u ->].
  intros Hc%contains_strip. by apply (capture_has_no_break u d).
Qed.

(** X13. Every value the extractor returns is one paragraph: it contains
    neither a line break followed by a dash nor two line breaks in a
    row, since the capture stops before the first of them. *)
Theorem field_single_paragraph text d key v :
  _parse_markdown_description (PyStr text) = Returned (PyDict d) →
  dict_get d key = Some (PyStr v) →
  ¬ contains (nl +:+ "-") v ∧ ¬ contains (nl +:+ nl) v.
Proof.
  rewrite parse_markdown_eq. intros [= <-] Hget.
  assert (∃ ls, v = field_of ls text) as [ls ->].
  { cbn [dict_get] in Hget.
    repeat (case_bool_decide; [injection Hget as <-; by eexists|]). done. }
  split.
  - apply (field_of_no_break ls text "-"). by left.
  - apply (field_of_no_break ls text LF). by right.
Qed.

Lemma prefix_ci_same p h q rest :
  same_letters p h = true → prefix_ci q (h +:+ rest) = prefix_ci q (p +:+ rest).
Proof.
  revert h q. induction p as [|a p IH]; intros [|b h] q; try done.
  cbn [same_letters]. intros [Hab Hph]%andb_prop.
  apply bool_decide_eq_true_1 in Hab.
  change (String b h +:+ rest) with (String b (h +:+ rest)).
  change (String a p +:+ rest) with (String a (p +:+ rest)).
  destruct q as [|c q]; [done|]. cbn [prefix_ci].
  rewrite Hab. by rewrite (IH h q Hph).
Qed.

Lemma same_letters_length p h :
  same_letters p h = true → String.length h = String.length p.
Proof.
  revert h. induction p as [|a p IH]; intros [|b h]; try done.
  cbn [same_letters]. intros [_ Hph]%andb_prop. simpl. by rewrite (IH h Hph).
Qed.

Lemma drop_str_exact n h rest :
  String.length h = n → drop_str n (h +:+ rest) = rest.
Proof. intros <-. apply drop_str_length_app. Qed.

(** A header in any letter case, at the start of the text, is found and
    what follows it is captured. *)
Lemma section_here_first l ls h rest :
  same_letters (header l) h = true →
  section_here (l :: ls) (h +:+ rest) = Some (until_boundary (lstrip rest)).
Proof.
  intros Hs. cbn [section_here].
  rewrite (prefix_ci_same _ _ _ _ Hs), prefix_ci_refl.
  by rewrite (drop_str_exact _ _ _ (same_letters_length _ _ Hs)).
Qed.

Lemma section_here_short h rest :
  same_letters (header "Issues") h = true →
  section_here issue_labels (h +:+ rest) = Some (until_boundary (lstrip rest)).
Proof.
  intros Hs. unfold issue_labels. cbn [section_here].
  rewrite !(prefix_ci_same _ _ _ _ Hs), prefix_ci_refl.
  rewrite (mismatch_prefix (header "Known Issues/Limitations") (header "Issues"))
    by by vm_compute.
  by rewrite (drop_str_exact _ _ _ (same_letters_length _ _ Hs)).
Qed.

(** X14. A text that starts with the header of a key, in any letter case
    and for the issues key in either spelling, gets for this key what
    follows the header up to the first section boundary, trimmed. *)
Theorem header_any_case key l h rest :
  (key, l) ∈ label_keys →
  same_letters (header l) h = true →
  ∃ d,
    _parse_markdown_description (PyStr (h +:+ rest)) = Returned (PyDict d)
    ∧ dict_get d key = Some (PyStr (strip (until_boundary (lstrip rest)))).
Proof.
  intros Hin Hs. rewrite parse_markdown_eq. eexists. split; [reflexivity|].
  unfold label_keys in Hin.
  repeat (apply elem_of_cons in Hin as [[= -> ->]|Hin]);
    [| | | | |by apply elem_of_nil in Hin];
    unfold field_of; fold issue_labels.
  - rewrite (find_section_here _ _ _ (section_here_first _ [] _ rest Hs)).
    reflexivity.
  - rewrite (find_section_here _ _ _ (section_here_first _ [] _ rest Hs)).
    reflexivity.
  - rewrite (find_section_here _ _ _ (section_here_first _ [] _ rest Hs)).
    reflexivity.
  - unfold issue_labels.
    rewrite (find_section_here _ _ _ (section_here_first _ ["Issues"] _ rest Hs)).
    reflexivity.
  - rewrite (find_section_here _ _ _ (section_here_short _ rest Hs)).
    reflexivity.
Qed.

(** ** The four fields of the fallback text *)

Lemma until_boundary_app_no_LF a s :
  has_char LF a = false → until_boundary (a +:+ s) = a +:+ until_boundary s.
Proof.
  induction a as [|c a IH]; [done|]. cbn [has_char].
  intros [Hc Ha]%orb_false_elim.
  change (String c a +:+ s) with (String c (a +:+ s)). cbn [until_boundary].
  assert (at_boundary (String c (a +:+ s)) = false) as ->.
  { unfold at_boundary, at_end. destruct (a +:+ s); by rewrite Hc. }
  change (String c a +:+ until_boundary s) with (String c (a +:+ until_boundary s)).
  by rewrite IH.
Qed.

Lemma until_boundary_item s : until_boundary (nl +:+ "- " +:+ s) = EmptyString.
Proof. reflexivity. Qed.

Lemma rstrip_keeps_last m z :
  isspace z = false → rstrip (m +:+ String z EmptyString) = m +:+ String z EmptyString.
Proof.
  intros Hz. induction m as [|x m IH].
  - change (rstrip (String z EmptyString) = String z EmptyString). simpl.
    by rewrite Hz.
  - change (String x m +:+ String z EmptyString)
      with (String x (m +:+ String z EmptyString)).
    cbn [rstrip]. rewrite IH. by destruct (m +:+ String z EmptyString) eqn:Hm;
      [destruct m; discriminate|].
Qed.

Lemma strip_fixed c m z :
  isspace c = false → isspace z = false →
  strip (String c m +:+ String z EmptyString) = String c m +:+ String z EmptyString.
Proof.
  intros Hc Hz. unfold strip.
  change (String c m +:+ String z EmptyString)
    with (String c (m +:+ String z EmptyString)).
  cbn [lstrip]. rewrite Hc.
  change (String c (m +:+ String z EmptyString))
    with (String c m +:+ String z EmptyString).
  by apply rstrip_keeps_last.
Qed.

Lemma append_empty_r s : s +:+ EmptyString = s.
Proof.
  induction s as [|c s IH]; [done|].
  change (String c (s +:+ EmptyString) = String c s). by rewrite IH.
Qed.

(** The capture of a sentence of the fallback text: it runs over the
    parameter and stops at the line break before the next item. *)
Lemma capture_sentence lead x tail rest :
  has_char LF lead = false → has_char LF x = false → has_char LF tail = false →
  until_boundary (lead +:+ x +:+ tail +:+ nl +:+ "- " +:+ rest)
  = lead +:+ x +:+ tail.
Proof.
  intros Hl Hx Ht.
  rewrite !until_boundary_app_no_LF by done.
  by rewrite until_boundary_item, append_empty_r.
Qed.

Lemma fallback_purpose t ci e :
  has_char LF (column_name ci) = false →
  find_section ["Business Purpose"] (fallback t ci e)
  = Some ("Could not determine purpose for " +:+ column_name ci +:+ ".").
Proof.
  intros Hc. rewrite fallback_eq.
  rewrite find_section_header_free by by vm_compute.
  rewrite (find_section_here _ _ _ (section_here_header _ _ _)).
  change (lstrip (" Could not determine purpose for " +:+ ?x))
    with ("Could not determine purpose for " +:+ x).
  by rewrite capture_sentence.
Qed.

Lemma fallback_rules t ci e :
  has_char "*" (column_name ci) = false →
  has_char LF (data_type ci) = false →
  find_section ["Data Quality Rules"] (fallback t ci e)
  = Some ("Must conform to data type " +:+ data_type ci +:+ ".").
Proof.
  intros Hc Hd. rewrite fallback_eq.
  rewrite !find_section_header_free
    by first [ by vm_compute | by apply nostar_header_free ].
  rewrite (find_section_here _ _ _ (section_here_header _ _ _)).
  change (lstrip (" Must conform to data type " +:+ ?x))
    with ("Must conform to data type " +:+ x).
  by rewrite capture_sentence.
Qed.

Lemma fallback_usage t ci e :
  has_char "*" (column_name ci) = false →
  has_char "*" (data_type ci) = false →
  has_char LF t = false →
  find_section ["Example Usage"] (fallback t ci e)
  = Some ("Used for general analysis within the " +:+ t +:+ " table.").
Proof.
  intros Hc Hd Ht. rewrite fallback_eq.
  rewrite !find_section_header_free
    by first [ by vm_compute | by apply nostar_header_free ].
  rewrite (find_section_here _ _ _ (section_here_header _ _ _)).
  change (lstrip (" Used for general analysis within the " +:+ ?x))
    with ("Used for general analysis within the " +:+ x).
  by rewrite capture_sentence.
Qed.

(** X15. When the table name, the column name and the declared type hold
    neither an asterisk nor a line break, the structured description of
    the fallback text is: the purpose could not be determined for the
    column; the values must conform to the declared type; the column is
    used for general analysis within the table; and the issue is that the
    generation failed, with the text of the failure up to its first
    section boundary. *)
Theorem fallback_parsed_fields t ci e :
  has_char "*" t = false → has_char LF t = false →
  has_char "*" (column_name ci) = false → has_char LF (column_name ci) = false →
  has_char "*" (data_type ci) = false → has_char LF (data_type ci) = false →
  _parse_markdown_description (PyStr (fallback t ci e))
  = Returned (StructuredDescription
      ("Could not determine purpose for " +:+ column_name ci +:+ ".")
      ("Must conform to data type " +:+ data_type ci +:+ ".")
      ("Used for general analysis within the " +:+ t +:+ " table.")
      (strip (until_boundary
                ("LLM description generation failed: " +:+ exn_text e)))).
Proof.
  intros Ht Ht' Hc Hc' Hd Hd'. rewrite parse_markdown_eq. unfold field_of.
  fold issue_labels.
  rewrite fallback_purpose, fallback_rules, fallback_usage, fallback_issues by done.
  do 2 f_equal.
  - rewrite <- append_assoc_str.
    apply (strip_fixed "C" ("ould not determine purpose for " +:+ column_name ci) ".");
      reflexivity.
  - rewrite <- append_assoc_str.
    apply (strip_fixed "M" ("ust conform to data type " +:+ data_type ci) "."); reflexivity.
  - rewrite <- (append_assoc_str _ t).
    change (" table.") with (" table" +:+ ".").
    rewrite <- append_assoc_str.
    apply (strip_fixed "U"
             (("sed for general analysis within the " +:+ t) +:+ " table") ".");
      reflexivity.
Qed.

(** ** The samples of a column *)

Section Ingestion.

Context {Sample : Type} `{EqDecision Sample}.

Lemma elem_of_unique_from (seen l : list Sample) x :
  x ∈ unique_from seen l ↔ x ∈ l ∧ x ∉ seen.
Proof.
  revert seen. induction l as [|y l IH]; intros seen; cbn [unique_from].
  - split; [by intros ?%elem_of_nil|by intros [?%elem_of_nil _]].
  - case_bool_decide as Hy.
    + rewrite IH, elem_of_cons. split.
      * intros [Hx Hs]. split; [by right|done].
      * intros [[-> | Hx] Hs]; [done|by split].
    + rewrite elem_of_cons, IH, !elem_of_cons. split.
      * intros [-> | [Hx Hs]].
        -- split; [by left|done].
        -- split; [by right|]. intros Hn. apply Hs. by right.
      * intros [[-> | Hx] Hs]; [by left|].
        destruct (decide (x = y)) as [->|Hne]; [by left|]. right.
        split; [done|]. by intros [?|?].
Qed.

Lemma NoDup_unique_from (seen l : list Sample) : NoDup (unique_from seen l).
Proof.
  revert seen. induction l as [|y l IH]; intros seen; cbn [unique_from].
  - constructor.
  - case_bool_decide; [apply IH|]. constructor; [|apply IH].
    rewrite elem_of_unique_from, elem_of_cons. intros [_ Hn]. apply Hn. by left.
Qed.

Lemma sublist_unique_from (seen l : list Sample) : sublist (unique_from seen l) l.
Proof.
  revert seen. induction l as [|y l IH]; intros seen; cbn [unique_from].
  - constructor.
  - case_bool_decide; [apply sublist_cons, IH|apply sublist_skip, IH].
Qed.

(** X16. The samples of a column are at most five, pairwise distinct,
    never a missing value, and taken from the cells of the column in the
    order of the column; when the column has at most five distinct values
    that are not missing, each of them is a sample. *)
Theorem sample_values_spec (col : @Series Sample) :
  (length (sample_values_of col) ≤ 5)%nat
  ∧ NoDup (sample_values_of col)
  ∧ sublist (sample_values_of col) (dropna (cells col))
  ∧ (∀ x, x ∈ sample_values_of col → Some x ∈ cells col)
  ∧ (∀ distinct : list Sample,
       NoDup distinct → (length distinct ≤ 5)%nat →
       (∀ x, Some x ∈ cells col → x ∈ distinct) →
       ∀ x, Some x ∈ cells col → x ∈ sample_values_of col).
Proof.
  unfold sample_values_of.
  assert (Hsub : sublist (take 5 (unique_from [] (dropna (cells col))))
                   (dropna (cells col))).
  { etrans; [apply sublist_take|apply sublist_unique_from]. }
  assert (Hcell : ∀ x, x ∈ dropna (cells col) ↔ Some x ∈ cells col).
  { intros x. unfold dropna. rewrite list_elem_of_omap. split.
    - intros (c & Hc & Heq). simpl in Heq. by subst c.
    - intros Hx. by exists (Some x). }
  split_and!.
  - rewrite length_take. lia.
  - eapply sublist_NoDup; [apply NoDup_unique_from|apply sublist_take].
  - done.
  - intros x Hx. apply Hcell. by eapply elem_of_sublist.
  - intros distinct Hnd Hlen Hall x Hx.
    rewrite take_ge.
    + apply elem_of_unique_from. split; [by apply Hcell|by intros ?%elem_of_nil].
    + etrans; [|exact Hlen]. apply submseteq_length, NoDup_submseteq.
      * apply NoDup_unique_from.
      * intros y [Hy _]%elem_of_unique_from. by apply Hall, Hcell.
Qed.

End Ingestion.

(** ** The added properties on the sample run *)

Lemma save_then_load_witness :
  ∃ σ1,
    _save_to_cache disk_ok "0cc175b9" (PyStr answer) fresh_cache = (Returned (), σ1)
    ∧ _load_from_cache "0cc175b9" σ1 = (Returned (PyStr answer), σ1).
Proof.
  apply (save_then_load disk_ok "0cc175b9" (PyStr answer) fresh_cache).
  reflexivity.
Defined.

Lemma save_keeps_other_keys_witness :
  (_load_from_cache "92eb5ffee6ae2fec3ad71c777531578f"
     (_save_to_cache disk_ok "0cc175b9c0f1b6a831c399e269772661" (PyStr answer)
        fresh_cache).2).1
  = (_load_from_cache "92eb5ffee6ae2fec3ad71c777531578f" fresh_cache).1
  ∧ (∀ e, disk_ok (cache_file "0cc175b9c0f1b6a831c399e269772661") = Some e →
          _save_to_cache disk_ok "0cc175b9c0f1b6a831c399e269772661" (PyStr answer)
            fresh_cache
          = (Raised e, fresh_cache)).
Proof.
  apply (save_keeps_other_keys disk_ok "0cc175b9c0f1b6a831c399e269772661"
           "92eb5ffee6ae2fec3ad71c777531578f" (PyStr answer) fresh_cache).
  - split; reflexivity.
  - split; reflexivity.
  - discriminate.
Defined.

Lemma save_overwrites_witness :
  (_save_to_cache disk_ok "0cc175b9" (PyStr answer)
     (_save_to_cache disk_ok "0cc175b9" PyNone fresh_cache).2).2
  = (_save_to_cache disk_ok "0cc175b9" (PyStr answer) fresh_cache).2.
Proof.
  apply (save_overwrites disk_ok "0cc175b9" PyNone (PyStr answer) fresh_cache).
  reflexivity.
Defined.

Lemma generate_frame_witness :
  let σ' := (demo_generate chat_ok disk_ok "llama3" fresh_cache).2 in
  (chat_log σ' = chat_log fresh_cache
   ∨ chat_log σ' = (chat_log fresh_cache ++ [("llama3", store_prompt)])%list)
  ∧ (∀ k, hexdigest k → k ≠ _get_cache_key digest store_prompt →
          files σ' !! cache_file k = files fresh_cache !! cache_file k)
  ∧ (chat_log σ' = chat_log fresh_cache → files σ' = files fresh_cache)
  ∧ (∀ e, chat_ok (chat_log fresh_cache) "llama3" store_prompt = Raised e →
          files σ' = files fresh_cache)
  ∧ (∀ content,
       chat_log σ' ≠ chat_log fresh_cache →
       chat_ok (chat_log fresh_cache) "llama3" store_prompt = Returned content →
       disk_ok store_file = None →
       files σ' = <[store_file := Pickle (PyStr (strip content))]> (files fresh_cache)).
Proof.
  apply (generate_frame digest repr_list chat_ok disk_ok table store_info
           store_samples "llama3" fresh_cache
           (demo_generate chat_ok disk_ok "llama3" fresh_cache).1).
  apply surjective_pairing.
Defined.

Lemma poisoned_hit :
  demo_generate chat_ok disk_ok "llama3" poisoned_cache
  = (Returned (PyInt 5), poisoned_cache).
Proof. apply generate_hit; [vm_compute; reflexivity|reflexivity]. Qed.

Lemma generate_returns_string_or_cached_witness :
  (∃ s, PyInt 5 = PyStr s)
  ∨ (files poisoned_cache !! store_file = Some (Pickle (PyInt 5))
     ∧ truthy (PyInt 5) = true ∧ poisoned_cache = poisoned_cache).
Proof.
  apply (generate_returns_string_or_cached digest repr_list chat_ok disk_ok table
           store_info store_samples "llama3" poisoned_cache (PyInt 5) poisoned_cache).
  exact poisoned_hit.
Defined.

Lemma empty_table_witness :
  demo_run chat_ok disk_ok (λ _, true) read_no_columns file_path "llama3" fresh_cache
  = (Returned (PyDict [(stem file_path, PyList [])]), fresh_cache).
Proof.
  apply (empty_table digest repr_list chat_ok disk_ok (λ _, true) read_no_columns
           stem file_path "llama3" fresh_cache); reflexivity.
Defined.

Lemma cached_non_string_empties_result_witness :
  demo_run chat_ok disk_ok exists_sales read_sales file_path "llama3" poisoned_cache
  = (Returned (PyDict []), poisoned_cache).
Proof.
  apply (cached_non_string_empties_result digest repr_list chat_ok disk_ok
           exists_sales read_sales stem file_path "llama3" poisoned_cache
           [] StoreID [TransactionDate] [] poisoned_cache (PyInt 5)).
  - reflexivity.
  - reflexivity.
  - reflexivity.
  - vm_compute. reflexivity.
  - reflexivity.
  - discriminate.
Defined.

Lemma warm_table_no_calls_witness :
  demo_run chat_down disk_locked exists_sales read_sales file_path "llama3" warm_cache
  = (Returned (PyDict [(stem file_path, PyList
       (zip_with record_of sales [answer; "**Issues**: late entries"]))]),
     warm_cache).
Proof.
  apply (warm_table_no_calls digest repr_list chat_down disk_locked exists_sales
           read_sales stem file_path "llama3" warm_cache sales
           [answer; "**Issues**: late entries"]).
  - reflexivity.
  - reflexivity.
  - repeat constructor; try discriminate; vm_compute; reflexivity.
Defined.

Lemma fresh_cache_sound : sound fresh_cache.
Proof. intros path. simpl. by rewrite lookup_empty. Qed.

Lemma second_table_run_from_cache_witness :
  ∃ texts σ1,
    demo_run chat_ok disk_ok exists_sales read_sales file_path "llama3" fresh_cache
    = (Returned (PyDict [(stem file_path, PyList (zip_with record_of sales texts))]), σ1)
    ∧ demo_run chat_ok disk_ok exists_sales read_sales file_path "llama3" σ1
      = (Returned (PyDict [(stem file_path, PyList (zip_with record_of sales texts))]), σ1)
    ∧ length texts = length sales.
Proof.
  apply (second_table_run_from_cache digest repr_list chat_ok disk_ok exists_sales
           read_sales stem file_path "llama3" fresh_cache sales).
  - reflexivity.
  - reflexivity.
  - exact fresh_cache_sound.
  - intros h m p. exists answer. split; [reflexivity|exact answer_not_blank].
  - reflexivity.
Defined.

Lemma field_single_paragraph_witness :
  ¬ contains (nl +:+ "-") "Codes are reused."
  ∧ ¬ contains (nl +:+ nl) "Codes are reused.".
Proof.
  apply (field_single_paragraph answer
           [ ("business_purpose", PyStr "Identifies the store of a sale.");
             ("data_quality_rules", PyStr "Must be a known store code.");
             ("example_usage", PyStr "Revenue per store.");
             ("issues", PyStr "Codes are reused.") ]
           "issues" "Codes are reused.").
  - vm_compute. reflexivity.
  - reflexivity.
Defined.

Lemma header_any_case_witness :
  ∃ d,
    _parse_markdown_description (PyStr ("**ISSUES**:" +:+ " stale" +:+ nl +:+ nl +:+ "more"))
    = Returned (PyDict d)
    ∧ dict_get d "issues"
      = Some (PyStr (strip (until_boundary (lstrip (" stale" +:+ nl +:+ nl +:+ "more"))))).
Proof.
  apply (header_any_case "issues" "Issues" "**ISSUES**:"
           (" stale" +:+ nl +:+ nl +:+ "more")).
  - unfold label_keys. do 4 apply list_elem_of_further. apply list_elem_of_here.
  - reflexivity.
Defined.

Lemma fallback_parsed_fields_witness :
  _parse_markdown_description (PyStr (fallback table store_info refused))
  = Returned (StructuredDescription
      ("Could not determine purpose for " +:+ column_name store_info +:+ ".")
      ("Must conform to data type " +:+ data_type store_info +:+ ".")
      ("Used for general analysis within the " +:+ table +:+ " table.")
      (strip (until_boundary
                ("LLM description generation failed: " +:+ exn_text refused)))).
Proof.
  apply (fallback_parsed_fields table store_info refused); vm_compute; reflexivity.
Defined.

(** ** A table whose every call to the model fails *)




Section AllFail.

Variable md5_hexdigest : string → string.
Context {Sample : Type} `{EqDecision Sample}.
Variable repr_list : list Sample → string.
Variable ollama_chat : list (string * string) → string → string → outcome string.
Variable write_fault : string → option exn.
Variable os_path_exists : string → bool.
Variable pd_read_csv : string → outcome (list (@Series Sample)).
Variable path_stem : string → string.

Abbreviation column_prompt table col :=
  (build_prompt repr_list table (column_info_metadata col) (sample_values_of col)).

(** The calls made for the columns [cols], in order. *)
Abbreviation calls_for table model cols :=
  ((λ col : @Series Sample, (model, column_prompt table col)) <$> cols).



End AllFail.


